(** * Study Energy: the daily accrual engine of [server.js]

    A shallow embedding of the part of [server.js] that keeps the per-user,
    per-day energy record and the activity log: the prepared statements
    [getDailyStats], [upsertDaily], [getYesterday], [countBatteries],
    [addLog], [getTotalEnergy], the function [ensureToday], and the route
    handlers of [GET /api/me] and [POST /api/log].

    Modelling decisions.

    - The SQLite database is a record [store] of the two tables the engine
      uses.  [daily_stats] carries [UNIQUE(user_id, date)], so it is a finite
      map keyed by [(user_id, date)]; [activity_log] is append-only with an
      [AUTOINCREMENT] id, so it is a list in id order and the id of a row is
      its position.  The columns [daily_stats.id] and [created_at] are never
      read by the engine and are left out.
    - JavaScript numbers are modelled as exact rationals ([Q]); the rounding
      of IEEE doubles is outside the model.  What SQLite does with 64-bit
      integers is modelled: a number bound to an INTEGER column is stored as
      an INTEGER when it is integral and strictly between the int64 bounds,
      and [SUM] over INTEGER values fails with "integer overflow".
    - Strings are the UTF-8 encodings of the JavaScript strings.
    - [todayStr()] and [yesterdayStr()] read the wall clock.  Every call site
      receives the string it read as a parameter, so that nothing is assumed
      about how the three reads of one request relate.
    - better-sqlite3 is synchronous and a statement that throws leaves the
      database as the earlier statements left it (the source opens no
      transaction).  Handlers are therefore written in a state monad with
      exceptions that keeps the state on a throw. *)

From Stdlib Require Import ZArith QArith Qminmax Lia.
From stdpp Require Import gmap strings list fin_maps.
From Stdlib Require Import Sorted.

Local Open Scope Z_scope.

(** ** JavaScript values of the request body *)

(** What [req.body.type] and [req.body.points] can be after [express.json()]:
    a JSON value, or [undefined] when the key is absent.  A number literal
    beyond the range of doubles (such as [1e999]) parses to an infinity.
    Arrays and objects are only ever tested for truthiness, so they are one
    opaque case. *)
Inductive jsval : Type :=
| JUndefined
| JNull
| JBool (b : bool)
| JNum (q : Q)
| JInfinity (negative : bool)
| JStr (s : string)
| JObject.

(** [!!v] *)
Definition truthy (v : jsval) : bool :=
  match v with
  | JUndefined => false
  | JNull => false
  | JBool b => b
  | JNum q => negb (Qeq_bool q 0)
  | JInfinity _ => true
  | JStr s => negb (String.eqb s "")
  | JObject => true
  end.

(** [v === undefined] *)
Definition is_undefined (v : jsval) : bool :=
  match v with
  | JUndefined => true
  | _ => false
  end.

(** Truthiness of an SQLite INTEGER read back into JavaScript. *)
Definition truthyZ (z : Z) : bool := negb (z =? 0).

(** [Math.max(0, x)] *)
Definition math_max0 (x : Q) : Q := if Qle_bool 0 x then x else 0%Q.

(** Whether a number is integral (its reduced denominator is one). *)
Definition is_integer (q : Q) : bool := Pos.eqb (Qden (Qred q)) 1.

(** ** The database *)

Definition date := string.

(** A row of [daily_stats] without its key columns. *)
Record daily_row : Type := mkDaily {
  energy : Q;
  battery_earned : Z;
  bonus_applied : Z
}.

(** A row of [activity_log]. *)
Record log_row : Type := mkLog {
  log_user : Z;
  log_type : string;
  log_points : Q;
  log_date : date
}.

Record store : Type := mkStore {
  daily_stats : gmap (Z * date) daily_row;
  activity_log : list log_row
}.

Definition empty_db : store := mkStore ∅ [].

(** ** Statements that may throw *)

Inductive exn : Type :=
| SqliteNotNull        (* NOT NULL constraint failed: activity_log.points *)
| TypeErrorUndefined   (* reading a property of undefined *)
| SqliteIntegerOverflow. (* integer overflow, raised by SUM *)

Definition M (A : Type) : Type := store -> (A + exn) * store.

Definition ret {A} (a : A) : M A := fun db => (inl a, db).

Definition throw {A} (e : exn) : M A := fun db => (inr e, db).

Definition bind {A B} (m : M A) (k : A -> M B) : M B :=
  fun db =>
    match m db with
    | (inl a, db') => k a db'
    | (inr e, db') => (inr e, db')
    end.

Notation "'let*' x ':=' m 'in' k" := (bind m (fun x => k))
  (at level 10, x name, m at level 100, k at level 200).

(** [stmts.getDailyStats.get(userId, date)]; [None] is [undefined]. *)
Definition getDailyStats (userId : Z) (d : date) : M (option daily_row) :=
  fun db => (inl (daily_stats db !! (userId, d)), db).

(** [stmts.getYesterday] is the same query. *)
Definition getYesterday (userId : Z) (d : date) : M (option daily_row) :=
  getDailyStats userId d.

(** [stmts.upsertDaily.run]: insert, or overwrite the three value columns of
    the row with the same [(user_id, date)]. *)
Definition upsertDaily (userId : Z) (d : date) (e : Q) (be ba : Z) : M unit :=
  fun db =>
    (inl tt, mkStore (<[(userId, d) := mkDaily e be ba]> (daily_stats db))
                     (activity_log db)).

(** [SUM(col)] over the rows of one user, [0] when there is none. *)
Definition sum_col (col : daily_row -> Z) (userId : Z)
    (t : gmap (Z * date) daily_row) : Z :=
  map_fold (fun k r acc => if decide (k.1 = userId) then col r + acc else acc) 0 t.

(** What the row under key [k] adds to [sum_col col userId]. *)
Definition contrib (col : daily_row -> Z) (userId : Z) (k : Z * date)
    (r : daily_row) : Z :=
  if decide (k.1 = userId) then col r else 0.

(** [stmts.countBatteries.get(userId)]: the pair [(earned, used)]. *)
Definition countBatteries (userId : Z) : M (Z * Z) :=
  fun db => (inl (sum_col battery_earned userId (daily_stats db),
                  sum_col bonus_applied userId (daily_stats db)), db).

(** [stmts.addLog.run(userId, type, points, date)]; [points = None] is a
    bound [null], refused by [points INTEGER NOT NULL].  The result is
    [lastInsertRowid]. *)
Definition addLog (userId : Z) (type : string) (points : option Q) (d : date)
    : M Z :=
  fun db =>
    match points with
    | None => (inr SqliteNotNull, db)
    | Some p =>
        (inl (Z.of_nat (S (length (activity_log db)))),
         mkStore (daily_stats db) (activity_log db ++ [mkLog userId type p d]))
    end.

(** The [points] of one user's log rows, in id order. *)
Definition user_points (userId : Z) (l : list log_row) : list Q :=
  map log_points (filter (fun r => log_user r = userId) l).

Definition Qsum (l : list Q) : Q := fold_left Qplus l 0%Q.

Definition INT64_MIN : Z := -9223372036854775808.
Definition INT64_MAX : Z := 9223372036854775807.

(** The storage class a number takes in a column of INTEGER affinity: it is
    stored as an INTEGER when it is integral and strictly between the int64
    bounds, and as a REAL otherwise. *)
Definition stored_as_integer (q : Q) : bool :=
  is_integer q
  && (INT64_MIN <? Qnum (Qred q)) && (Qnum (Qred q) <? INT64_MAX).

(** The running int64 sum of [SUM] from [acc]; [None] when it leaves the
    int64 range at some row. *)
Fixpoint int64_sum_from (acc : Z) (zs : list Z) : option Z :=
  match zs with
  | [] => Some acc
  | z :: zs' =>
      let s := acc + z in
      if (INT64_MIN <=? s) && (s <=? INT64_MAX) then int64_sum_from s zs'
      else None
  end.

(** Whether [SUM] raises "integer overflow" over these values, taken in row
    order: it does when all of them are INTEGERs and the running sum leaves
    the int64 range at some row.  With a REAL among them the sum is computed
    in floating point and does not fail (the rule as the documentation of
    [sum()] states it). *)
Definition sum_overflows (l : list Q) : bool :=
  forallb stored_as_integer l
  && match int64_sum_from 0 (map (fun q => Qnum (Qred q)) l) with
     | Some _ => false
     | None => true
     end.

(** [COALESCE(SUM(points), 0)]; [None] is the "integer overflow" error. *)
Definition sql_sum (l : list Q) : option Q :=
  if sum_overflows l then None else Some (Qsum l).

(** [stmts.getTotalEnergy.get(userId).total] *)
Definition getTotalEnergy (userId : Z) : M Q :=
  fun db =>
    match sql_sum (user_points userId (activity_log db)) with
    | Some total => (inl total, db)
    | None => (inr SqliteIntegerOverflow, db)
    end.

(** ** ensureToday *)

(** [today] and [yesterday] are what [todayStr()] (line 115) and
    [yesterdayStr()] (line 119) return during the call. *)
Definition ensureToday (today yesterday : date) (userId : Z)
    : M (option daily_row) :=
  let* stats := getDailyStats userId today in
  match stats with
  | Some _ => ret stats
  | None =>
      let* yrow := getYesterday userId yesterday in
      let* bonusApplied :=
        match yrow with
        | Some y =>
            if truthyZ (battery_earned y) then
              let* batRow := countBatteries userId in
              let available := batRow.1 - batRow.2 in
              if 0 <? available then ret 1 else ret 0
            else ret 0
        | None => ret 0
        end in
      let startEnergy := if truthyZ bonusApplied then 20%Q else 0%Q in
      let* _ := upsertDaily userId today startEnergy 0 bonusApplied in
      let* _ :=
        if truthyZ bonusApplied
        then (let* _ := addLog userId "Battery Bonus" (Some 20%Q) today in ret tt)
        else ret tt in
      getDailyStats userId today
  end.

(** ** Route handlers *)

(** The wall-clock reads of one request: [todayStr()] in the handler of
    [POST /api/log] (line 205), and [todayStr()] and [yesterdayStr()] inside
    [ensureToday]. *)
Record clock : Type := mkClock {
  handler_today : date;
  ensure_today : date;
  ensure_yesterday : date
}.

(** A clock whose reads all fall on day [d], with [y] read as yesterday. *)
Definition on_day (d y : date) : clock := mkClock d d y.

(** What the client receives: [400] from the guard, [500] when an exception
    escapes the handler, or the JSON body. *)
Inductive reply (A : Type) : Type :=
| Status400
| Status500 (e : exn)
| Status200 (body : A).
Arguments Status400 {A}.
Arguments Status500 {A} e.
Arguments Status200 {A} body.

Definition to_reply {A} (r : A + exn) : reply A :=
  match r with
  | inl body => Status200 body
  | inr e => Status500 e
  end.

Record me_body : Type := mkMe {
  me_totalEnergy : Q;
  me_todayEnergy : Q;
  me_batteries : Z;
  me_batEarned : bool;
  me_bonusActive : bool
}.

Record log_body : Type := mkLogBody {
  lb_id : Z;
  lb_totalEnergy : Q;
  lb_todayEnergy : Q;
  lb_batteries : Z;
  lb_batEarned : bool;
  lb_newBattery : bool
}.

(** [GET /api/me] after [requireAuth]. *)
Definition api_me_body (clk : clock) (userId : Z) : M me_body :=
  let* dailyStats := ensureToday (ensure_today clk) (ensure_yesterday clk) userId in
  let* totalRow := getTotalEnergy userId in
  let* batRow := countBatteries userId in
  match dailyStats with
  | None => throw TypeErrorUndefined
  | Some ds =>
      ret (mkMe totalRow (energy ds) (batRow.1 - batRow.2)
                (truthyZ (battery_earned ds)) (truthyZ (bonus_applied ds)))
  end.

Definition api_me (clk : clock) (userId : Z) (db : store)
    : reply me_body * store :=
  let (r, db') := api_me_body clk userId db in (to_reply r, db').

Definition BAT_GOAL : Q := 65%Q.

(** [stats.energy + points] for [points] a number or [null]. *)
Definition js_plus (e : Q) (points : option Q) : Q :=
  match points with
  | Some p => (e + p)%Q
  | None => (e + 0)%Q
  end.

(** [POST /api/log] from line 204 on, for a string [type] and a [points]
    that is a number or [null]. *)
Definition api_log_body (clk : clock) (userId : Z) (type : string)
    (points : option Q) : M log_body :=
  let today := handler_today clk in
  let* _ := ensureToday (ensure_today clk) (ensure_yesterday clk) userId in
  let* logResult := addLog userId type points today in
  let* stats := getDailyStats userId today in
  match stats with
  | None => throw TypeErrorUndefined
  | Some stats =>
      let newEnergy := math_max0 (js_plus (energy stats) points) in
      let batEarned :=
        if Qle_bool BAT_GOAL newEnergy && negb (truthyZ (battery_earned stats))
        then 1 else battery_earned stats in
      let* _ := upsertDaily userId today newEnergy batEarned (bonus_applied stats) in
      let* totalRow := getTotalEnergy userId in
      let* batRow := countBatteries userId in
      let* updatedStats := getDailyStats userId today in
      match updatedStats with
      | None => throw TypeErrorUndefined
      | Some us =>
          ret (mkLogBody logResult totalRow (energy us) (batRow.1 - batRow.2)
                 (truthyZ (battery_earned us))
                 (negb (truthyZ (battery_earned stats))
                  && truthyZ (battery_earned us)))
      end
  end.

(** The guard of line 202: [!type || points === undefined]. *)
Definition log_rejected (type points : jsval) : bool :=
  negb (truthy type) || is_undefined points.

(** The arguments [addLog] is bound with, for the request bodies the
    embedding follows past the guard: a string [type] with [points] a number
    or [null]. *)
Definition bound_args (type points : jsval) : option (string * option Q) :=
  match type, points with
  | JStr ty, JNum q => Some (ty, Some q)
  | JStr ty, JNull => Some (ty, None)
  | _, _ => None
  end.

(** [POST /api/log] after [requireAuth].  [None] marks a request body the
    embedding does not follow past the guard ([points] a string, an infinity,
    a boolean, an array or an object, or a [type] that is not a string):
    there JavaScript's string concatenation, its [NaN] and the driver's
    binding rules decide. *)
Definition api_log (clk : clock) (userId : Z) (type points : jsval)
    (db : store) : option (reply log_body * store) :=
  if log_rejected type points then Some (Status400, db)
  else
    match bound_args type points with
    | Some (ty, p) =>
        let (r, db') := api_log_body clk userId ty p db in
        Some (to_reply r, db')
    | None => None
    end.

(** ** Scenarios *)

Definition clk1 : clock := on_day "2024-05-02" "2024-05-01".

Definition scenario_A := api_log clk1 7 (JStr "read") (JNum 70) empty_db.

(** ** The figures derived from the tables *)

(** The battery balance the handlers report: [batRow.earned - batRow.used]. *)
Definition battery_balance (userId : Z) (db : store) : Z :=
  sum_col battery_earned userId (daily_stats db)
  - sum_col bonus_applied userId (daily_stats db).

(** The number of a user's daily records whose flag [col] is set, counted
    over the rows of the table. *)
Definition count_set (col : daily_row -> Z) (userId : Z)
    (t : gmap (Z * date) daily_row) : Z :=
  Z.of_nat
    (length
       (filter (fun kr : Z * date * daily_row =>
                  kr.1.1 = userId /\ col kr.2 <> 0)
               (map_to_list t))).

(** The balance in the words of the specification: batteries earned minus
    bonuses applied, each record counting once. *)
Definition spec_balance (userId : Z) (db : store) : Z :=
  count_set battery_earned userId (daily_stats db)
  - count_set bonus_applied userId (daily_stats db).

(** The eligibility rule in the words of the specification: yesterday's
    record exists, has its battery, and the balance is strictly positive. *)
Definition bonus_eligible (yesterday : date) (userId : Z) (db : store) : bool :=
  match daily_stats db !! (userId, yesterday) with
  | Some y => truthyZ (battery_earned y) && (0 <? battery_balance userId db)
  | None => false
  end.

(** The record and the log entry a granted bonus creates, and the record
    created without a bonus. *)
Definition bonus_row : daily_row := mkDaily 20 0 1.
Definition plain_row : daily_row := mkDaily 0 0 0.
Definition bonus_entry (userId : Z) (today : date) : log_row :=
  mkLog userId "Battery Bonus" 20 today.

(** The store [ensureToday] leaves under the clock reads of a request. *)
Definition ensured (clk : clock) (u : Z) (db : store) : store :=
  (ensureToday (ensure_today clk) (ensure_yesterday clk) u db).2.

(** The row [POST /api/log] writes over [stats] for a numeric [points]. *)
Definition updated_row (stats : daily_row) (q : Q) : daily_row :=
  let newEnergy := math_max0 (energy stats + q)%Q in
  mkDaily newEnergy
    (if Qle_bool BAT_GOAL newEnergy && negb (truthyZ (battery_earned stats))
     then 1 else battery_earned stats)
    (bonus_applied stats).

(** The store once the log entry and the row update are both in. *)
Definition committed (u : Z) (today : date) (ty : string) (q : Q)
    (stats : daily_row) (db : store) : store :=
  mkStore (<[(u, today) := updated_row stats q]> (daily_stats db))
          (activity_log db ++ [mkLog u ty q today]).

(** The store with the log entry in and the row update missing. *)
Definition logged_only (u : Z) (today : date) (ty : string) (q : Q)
    (db : store) : store :=
  mkStore (daily_stats db) (activity_log db ++ [mkLog u ty q today]).

(** The JSON body answered from the store [db2] the request leaves. *)
Definition answer (u : Z) (id : Z) (stats us : daily_row) (db2 : store)
    : log_body :=
  mkLogBody id (Qsum (user_points u (activity_log db2))) (energy us)
    (battery_balance u db2) (truthyZ (battery_earned us))
    (negb (truthyZ (battery_earned stats)) && truthyZ (battery_earned us)).

(** What [POST /api/log] answers once both writes are in: the body, or 500
    when [SUM(points)] overflows. *)
Definition answered (u : Z) (id : Z) (stats us : daily_row) (db2 : store)
    : log_body + exn :=
  if sum_overflows (user_points u (activity_log db2))
  then inr SqliteIntegerOverflow
  else inl (answer u id stats us db2).

(** The point deltas logged for one user on one date, in id order. *)
Definition day_points (userId : Z) (d : date) (l : list log_row) : list Q :=
  map log_points
      (filter (fun r => log_user r = userId /\ log_date r = d) l).

(** One application of the clamp rule. *)
Definition clamp_add (e p : Q) : Q := math_max0 (e + p)%Q.

(** Replaying the clamp rule over a list of deltas, from energy [0]. *)
Definition replay (pts : list Q) : Q := fold_left clamp_add pts 0%Q.

(** The cached energy of a day agrees with the log entries of that day. *)
Definition ledger_consistent (userId : Z) (d : date) (db : store) : Prop :=
  match daily_stats db !! (userId, d) with
  | Some r => energy r = replay (day_points userId d (activity_log db))
  | None => day_points userId d (activity_log db) = []
  end.

(** The record of [(u, d)] exists and agrees with the log of that day. *)
Definition day_ok (u : Z) (d : date) (db : store) (row : daily_row) : Prop :=
  daily_stats db !! (u, d) = Some row
  /\ energy row = replay (day_points u d (activity_log db)).

(** Every flag of every record is [0] or [1]. *)
Definition flags01 (t : gmap (Z * date) daily_row) : Prop :=
  forall k r, t !! k = Some r ->
    (battery_earned r = 0 \/ battery_earned r = 1)
    /\ (bonus_applied r = 0 \/ bonus_applied r = 1).

(** ** Sequences of requests *)

(** The requests the embedding follows to the end: [GET /api/me], and
    [POST /api/log] with a string [type] and [points] a finite number or
    [null].  Bodies the guard lets through with other [points] (a string, an
    infinity, a boolean, an array or an object) are not among them. *)
Inductive request : Type :=
| GetMe (clk : clock) (userId : Z)
| PostLog (clk : clock) (userId : Z) (type : string) (points : option Q).

Definition points_js (p : option Q) : jsval :=
  match p with
  | Some q => JNum q
  | None => JNull
  end.

(** The store after one request. *)
Definition step (db : store) (r : request) : store :=
  match r with
  | GetMe clk u => (api_me clk u db).2
  | PostLog clk u ty p =>
      match api_log clk u (JStr ty) (points_js p) db with
      | Some (_, db') => db'
      | None => db
      end
  end.

Definition run (rs : list request) (db : store) : store := fold_left step rs db.

(** The stores reached from the empty database by the requests of
    [request]. *)
Inductive reachable : store -> Prop :=
| reach_empty : reachable empty_db
| reach_step db r : reachable db -> reachable (step db r).

(** The stores reached by the requests of [request] whose clock reads fall
    on one day each (no request is handled across midnight). *)
Inductive day_reachable : store -> Prop :=
| day_reach_empty : day_reachable empty_db
| day_reach_me db clk u :
    day_reachable db -> day_reachable (step db (GetMe clk u))
| day_reach_log db clk u ty p :
    day_reachable db ->
    handler_today clk = ensure_today clk ->
    day_reachable (step db (PostLog clk u ty p)).

(** An activity of [u] on day [d]: the clock reads of the request all fall
    on [d]; [c] gives the string read as yesterday, the type and the points. *)
Definition activity (u : Z) (d : date) (c : date * string * Q) : request :=
  PostLog (on_day d c.1.1) u c.1.2 (Some c.2).

(** The store of scenario A: a new user logs 70 points. *)
Definition db_A : store := step empty_db (PostLog clk1 7 "read" (Some 70%Q)).

(** A store in which user 7 earned a battery on 2024-05-01. *)
Definition db_yesterday : store :=
  step empty_db (PostLog (on_day "2024-05-01" "2024-04-30") 7 "read" (Some 70%Q)).

(** A request handled across midnight: the handler reads 2024-05-01, and
    [ensureToday], called after it, reads 2024-05-02. *)
Definition clk_midnight : clock := mkClock "2024-05-01" "2024-05-02" "2024-05-01".

(** ** GET /api/history *)

(** A row of [getTodayLog]: the columns [id], [type] and [points]
    ([created_at] is not part of the store). *)
Record history_row : Type := mkHist {
  h_id : Z;
  h_type : string;
  h_points : Q
}.

(** The rows of [activity_log] with their [AUTOINCREMENT] ids, from id [n]. *)
Fixpoint numbered_from (n : Z) (l : list log_row) : list (Z * log_row) :=
  match l with
  | [] => []
  | r :: l' => (n, r) :: numbered_from (n + 1) l'
  end.

Definition numbered (l : list log_row) : list (Z * log_row) := numbered_from 1 l.

(** [stmts.getTodayLog.all(userId, date)]: the user's entries of that date,
    [ORDER BY id DESC]. *)
Definition getTodayLog (userId : Z) (d : date) : M (list history_row) :=
  fun db =>
    (inl (reverse
            (map (fun ir : Z * log_row =>
                    mkHist ir.1 (log_type ir.2) (log_points ir.2))
                 (filter (fun ir : Z * log_row =>
                            log_user ir.2 = userId /\ log_date ir.2 = d)
                         (numbered (activity_log db))))), db).

(** [GET /api/history] after [requireAuth]; [today] is what [todayStr()]
    returns in the handler. *)
Definition api_history (today : date) (userId : Z) (db : store)
    : reply (list history_row) * store :=
  let (r, db') := getTodayLog userId today db in (to_reply r, db').

(** The user a request acts for. *)
Definition request_user (r : request) : Z :=
  match r with
  | GetMe _ u => u
  | PostLog _ u _ _ => u
  end.

(** Whether [ensureToday] grants the bonus from [db] under the clock [clk]. *)
Definition grants_bonus (clk : clock) (u : Z) (db : store) : bool :=
  match daily_stats db !! (u, ensure_today clk) with
  | Some _ => false
  | None => bonus_eligible (ensure_yesterday clk) u db
  end.

(** ** Users, sessions and the auth routes *)

(** A row of [users]; the table is a list in id order, the id of a row being
    its position ([AUTOINCREMENT], and no row is ever deleted). *)
Record user_row : Type := mkUser {
  u_username : string;
  u_password : string
}.

(** The [NOCASE] collation of [users.username]: the 26 upper-case ASCII
    letters are folded to lower case before comparing; the comparison of the
    bytes stops at the first NUL byte, and then only the lengths are
    compared.  [nocase s] is the key two strings share exactly when the
    collation finds them equal. *)
Definition lower_ascii (c : Ascii.ascii) : Ascii.ascii :=
  let n := Ascii.nat_of_ascii c in
  if (65 <=? n)%nat && (n <=? 90)%nat then Ascii.ascii_of_nat (n + 32) else c.

Fixpoint zeros (s : string) : string :=
  match s with
  | EmptyString => EmptyString
  | String _ s' => String Ascii.zero (zeros s')
  end.

Fixpoint nocase (s : string) : string :=
  match s with
  | EmptyString => EmptyString
  | String c s' =>
      if Ascii.eqb c Ascii.zero then String Ascii.zero (zeros s')
      else String (lower_ascii c) (nocase s')
  end.

Definition nocase_eqb (a b : string) : bool := String.eqb (nocase a) (nocase b).

Fixpoint find_from (n : Z) (name : string) (us : list user_row)
    : option (Z * user_row) :=
  match us with
  | [] => None
  | r :: us' =>
      if nocase_eqb (u_username r) name then Some (n, r)
      else find_from (n + 1) name us'
  end.

(** [stmts.findUser.get(username)]: the row and its id. *)
Definition findUser (name : string) (us : list user_row) : option (Z * user_row) :=
  find_from 1 name us.

(** [stmts.createUser.run(username, hash)]: [lastInsertRowid], or [None] when
    [UNIQUE(username)] refuses the row. *)
Definition createUser (name hash : string) (us : list user_row)
    : option Z * list user_row :=
  match findUser name us with
  | Some _ => (None, us)
  | None => (Some (Z.of_nat (S (length us))), us ++ [mkUser name hash])
  end.

(** The number of UTF-16 code units a UTF-8 byte accounts for: one for an
    ASCII byte and for the lead byte of a two- or three-byte sequence, two
    for the lead byte of a four-byte sequence (a surrogate pair), none for a
    continuation byte. *)
Definition utf16_units (c : Ascii.ascii) : nat :=
  let n := Ascii.nat_of_ascii c in
  if (n <? 128)%nat then 1%nat
  else if (n <? 192)%nat then 0%nat
  else if (n <? 240)%nat then 1%nat
  else 2%nat.

(** JavaScript's [.length] of the string a UTF-8 encoding stands for. *)
Fixpoint js_length (s : string) : nat :=
  match s with
  | EmptyString => 0%nat
  | String c s' => (utf16_units c + js_length s')%nat
  end.

(** What the routes keep in [req.session]. *)
Record session : Type := mkSession {
  s_userId : Z;
  s_username : string
}.

(** [requireAuth]: the user id the request goes on with, or [None] for the
    401 answer. *)
Definition requireAuth (sess : option session) : option Z :=
  match sess with
  | Some s => if truthyZ (s_userId s) then Some (s_userId s) else None
  | None => None
  end.

Inductive auth_reply : Type :=
| AuthOk (username : string)
| Auth400 (error : string)
| Auth401
| Auth409
| Auth500.

(** [POST /api/signup].  [hash] is what [bcrypt.hashSync(password, 10)]
    returns in this request, and [js_length] is JavaScript's [.length].
    [None] marks a body the embedding does not follow past the
    first guard (a truthy field that is not a string). *)
Definition api_signup (hash : string) (username password : jsval)
    (sess : option session) (us : list user_row)
    : option (auth_reply * option session * list user_row) :=
  if negb (truthy username) || negb (truthy password)
  then Some (Auth400 "Username and password required", sess, us)
  else
    match username, password with
    | JStr name, JStr pw =>
        if (22 <? js_length name)%nat
        then Some (Auth400 "Username too long (max 22 chars)", sess, us)
        else if (js_length pw <? 3)%nat
        then Some (Auth400 "Password too short (min 3 chars)", sess, us)
        else
          match findUser name us with
          | Some _ => Some (Auth409, sess, us)
          | None =>
              match createUser name hash us with
              | (Some id, us') => Some (AuthOk name, Some (mkSession id name), us')
              | (None, us') => Some (Auth500, sess, us')
              end
          end
    | _, _ => None
    end.

(** [POST /api/login], with [bcrypt.compareSync] as a parameter. *)
Definition api_login (compareSync : string -> string -> bool)
    (username password : jsval) (sess : option session) (us : list user_row)
    : option (auth_reply * option session) :=
  if negb (truthy username) || negb (truthy password)
  then Some (Auth400 "Username and password required", sess)
  else
    match username, password with
    | JStr name, JStr pw =>
        match findUser name us with
        | None => Some (Auth401, sess)
        | Some (id, user) =>
            if negb (compareSync pw (u_password user)) then Some (Auth401, sess)
            else Some (AuthOk (u_username user),
                       Some (mkSession id (u_username user)))
        end
    | _, _ => None
    end.

(** [POST /api/logout]: the session is destroyed. *)
Definition api_logout (sess : option session) : option session := None.

(** ** GET /api/leaderboard *)

Record leader_row : Type := mkLeader {
  l_id : Z;
  l_username : string;
  l_total_energy : Q;
  l_today_energy : Q;
  l_batteries : Z
}.

(** The line of one user: the three [COALESCE] columns of the query.
    [None] is the "integer overflow" error of [SUM(a.points)]. *)
Definition leader_line (today : date) (db : store) (ir : Z * user_row)
    : option leader_row :=
  match sql_sum (user_points ir.1 (activity_log db)) with
  | Some total =>
      Some (mkLeader ir.1 (u_username ir.2) total
              (match daily_stats db !! (ir.1, today) with
               | Some r => energy r
               | None => 0%Q
               end)
              (sum_col battery_earned ir.1 (daily_stats db)
               - sum_col bonus_applied ir.1 (daily_stats db)))
  | None => None
  end.

(** The users with their ids, from id [n]. *)
Fixpoint users_from (n : Z) (us : list user_row) : list (Z * user_row) :=
  match us with
  | [] => []
  | r :: us' => (n, r) :: users_from (n + 1) us'
  end.

(** [ORDER BY total_energy DESC], as an insertion sort that keeps rows of
    equal total in their order: [x], which comes before the rows of [l], goes
    in front of the first row whose total is not greater than its own. *)
Fixpoint insert_desc (x : leader_row) (l : list leader_row) : list leader_row :=
  match l with
  | [] => [x]
  | y :: l' =>
      if Qle_bool (l_total_energy y) (l_total_energy x)
      then x :: l
      else y :: insert_desc x l'
  end.

Definition sort_desc (l : list leader_row) : list leader_row :=
  foldr insert_desc [] l.

(** [stmts.leaderboard.all(todayStr())]; [None] when the statement throws
    (the [SUM] of some user overflows), which the route answers with 500. *)
Definition leaderboard (today : date) (us : list user_row) (db : store)
    : option (list leader_row) :=
  match mapM (leader_line today db) (users_from 1 us) with
  | Some lines => Some (sort_desc lines)
  | None => None
  end.

(** ** The server *)

(** The tables, and the session of each client (keyed by its cookie). *)
Record server : Type := mkServer {
  sv_users : list user_row;
  sv_db : store;
  sv_sessions : gmap nat session
}.

Definition empty_server : server := mkServer [] empty_db ∅.

(** The requests of a client [c].  [SessionLost] is the session store
    dropping a session (expiry). *)
Inductive http : Type :=
| Signup (c : nat) (hash : string) (username password : string)
| Login (c : nat) (username password : string)
| Logout (c : nat)
| Me (c : nat) (clk : clock)
| Log (c : nat) (clk : clock) (type : string) (points : option Q)
| History (c : nat) (today : date)
| Leaderboard (today : date)
| SessionLost (c : nat).

Definition set_session (c : nat) (s : option session) (m : gmap nat session)
    : gmap nat session :=
  match s with
  | Some s => <[c := s]> m
  | None => delete c m
  end.

(** The server after one request. *)
Definition serve (compareSync : string -> string -> bool) (sv : server)
    (rq : http) : server :=
  match rq with
  | Signup c hash name pw =>
      match api_signup hash (JStr name) (JStr pw) (sv_sessions sv !! c) (sv_users sv) with
      | Some (_, s, us) => mkServer us (sv_db sv) (set_session c s (sv_sessions sv))
      | None => sv
      end
  | Login c name pw =>
      match api_login compareSync (JStr name) (JStr pw) (sv_sessions sv !! c) (sv_users sv) with
      | Some (_, s) => mkServer (sv_users sv) (sv_db sv) (set_session c s (sv_sessions sv))
      | None => sv
      end
  | Logout c =>
      mkServer (sv_users sv) (sv_db sv)
               (set_session c (api_logout (sv_sessions sv !! c)) (sv_sessions sv))
  | Me c clk =>
      match requireAuth (sv_sessions sv !! c) with
      | Some uid => mkServer (sv_users sv) (step (sv_db sv) (GetMe clk uid)) (sv_sessions sv)
      | None => sv
      end
  | Log c clk ty p =>
      match requireAuth (sv_sessions sv !! c) with
      | Some uid =>
          mkServer (sv_users sv) (step (sv_db sv) (PostLog clk uid ty p)) (sv_sessions sv)
      | None => sv
      end
  | History c today => sv
  | Leaderboard today => sv
  | SessionLost c => mkServer (sv_users sv) (sv_db sv) (delete c (sv_sessions sv))
  end.

(** The servers reachable from the empty database with no session. *)
Inductive served (compareSync : string -> string -> bool) : server -> Prop :=
| served_empty : served compareSync empty_server
| served_step sv rq :
    served compareSync sv -> served compareSync (serve compareSync sv rq).

(** [id] is the id of a row of [users]. *)
Definition registered (us : list user_row) (id : Z) : Prop :=
  1 <= id <= Z.of_nat (length us).

(** No two registered usernames are equal under [NOCASE]. *)
Definition unique_usernames (us : list user_row) : Prop :=
  NoDup (map (fun r => nocase (u_username r)) us).

(** The server after a sequence of requests. *)
Definition serve_all (compareSync : string -> string -> bool)
    (rqs : list http) (sv : server) : server :=
  fold_left (serve compareSync) rqs sv.

(** A session names a registered user, under the username stored for it. *)
Definition session_ok (us : list user_row) (s : session) : Prop :=
  registered us (s_userId s)
  /\ exists row, us !! Z.to_nat (s_userId s - 1) = Some row
                 /\ u_username row = s_username s.

(** Every daily record and every log entry belongs to a registered user. *)
Definition db_users_ok (us : list user_row) (db : store) : Prop :=
  (forall u d row, daily_stats db !! (u, d) = Some row -> registered us u)
  /\ (forall e, e ∈ activity_log db -> registered us (log_user e)).

(** The line of a user whose [SUM(a.points)] does not overflow. *)
Definition line_ok (today : date) (db : store) (ir : Z * user_row) : leader_row :=
  mkLeader ir.1 (u_username ir.2)
    (Qsum (user_points ir.1 (activity_log db)))
    (match daily_stats db !! (ir.1, today) with
     | Some r => energy r
     | None => 0%Q
     end)
    (battery_balance ir.1 db).

(** * Properties *)

(** ** Numbers *)

Lemma math_max0_nonneg x : (0 <= math_max0 x)%Q.
Proof.
  unfold math_max0. destruct (Qle_bool 0 x) eqn:E.
  - apply Qle_bool_iff. exact E.
  - apply Qle_refl.
Qed.

Lemma math_max0_inject_Z z : math_max0 (inject_Z z) = inject_Z (Z.max 0 z).
Proof.
  unfold math_max0, Qle_bool, inject_Z. cbn [Qnum Qden].
  rewrite !Z.mul_1_r. destruct (0 <=? z) eqn:E.
  - apply Z.leb_le in E. rewrite Z.max_r by lia. reflexivity.
  - apply Z.leb_gt in E. rewrite Z.max_l by lia. reflexivity.
Qed.

Lemma Qplus_inject_Z a b : (inject_Z a + inject_Z b)%Q = inject_Z (a + b).
Proof. unfold Qplus, inject_Z. cbn [Qnum Qden]. rewrite !Z.mul_1_r. reflexivity. Qed.

(** ** Column sums *)

Section sum_col.
Context (col : daily_row -> Z) (u : Z).
Implicit Types (t : gmap (Z * date) daily_row) (k : Z * date) (r : daily_row).

Lemma sum_col_empty : sum_col col u ∅ = 0.
Proof. unfold sum_col. by rewrite map_fold_empty. Qed.

Lemma sum_col_insert_fresh t k r :
  t !! k = None ->
  sum_col col u (<[k := r]> t) = contrib col u k r + sum_col col u t.
Proof.
  intros Hk. unfold sum_col, contrib.
  rewrite map_fold_insert_L; [| |done].
  - by destruct (decide (k.1 = u)).
  - intros j1 j2 z1 z2 y _ _ _.
    destruct (decide (j1.1 = u)), (decide (j2.1 = u)); lia.
Qed.

Lemma sum_col_insert t k r :
  sum_col col u (<[k := r]> t)
  = contrib col u k r + sum_col col u t
    - match t !! k with Some r0 => contrib col u k r0 | None => 0 end.
Proof.
  destruct (t !! k) as [r0|] eqn:Hk.
  - rewrite <- (insert_delete_eq t k r).
    rewrite sum_col_insert_fresh by apply lookup_delete_eq.
    rewrite <- (insert_delete_id t k r0 Hk) at 2.
    rewrite sum_col_insert_fresh by apply lookup_delete_eq. lia.
  - rewrite sum_col_insert_fresh by done. lia.
Qed.
End sum_col.

(** ** ensureToday *)

Lemma ensureToday_existing today yesterday u db row :
  daily_stats db !! (u, today) = Some row ->
  ensureToday today yesterday u db = (inl (Some row), db).
Proof.
  intros H. unfold ensureToday, bind, getDailyStats. cbn. rewrite H. reflexivity.
Qed.

Lemma ensureToday_fresh today yesterday u db :
  daily_stats db !! (u, today) = None ->
  ensureToday today yesterday u db =
    if bonus_eligible yesterday u db
    then (inl (Some bonus_row),
          mkStore (<[(u, today) := bonus_row]> (daily_stats db))
                  (activity_log db ++ [bonus_entry u today]))
    else (inl (Some plain_row),
          mkStore (<[(u, today) := plain_row]> (daily_stats db))
                  (activity_log db)).
Proof.
  intros H.
  unfold ensureToday, bind, getYesterday, getDailyStats, bonus_eligible. cbn.
  rewrite H.
  destruct (daily_stats db !! (u, yesterday)) as [y|]; cbn.
  - destruct (truthyZ (battery_earned y)); cbn.
    + unfold battery_balance.
      destruct (0 <? _); cbn; rewrite lookup_insert_eq; reflexivity.
    + rewrite lookup_insert_eq. reflexivity.
  - rewrite lookup_insert_eq. reflexivity.
Qed.

(** [ensureToday] never throws and always returns a record. *)
Lemma ensureToday_returns today yesterday u db :
  exists row,
    ensureToday today yesterday u db
    = (inl (Some row), (ensureToday today yesterday u db).2)
    /\ daily_stats (ensureToday today yesterday u db).2 !! (u, today) = Some row.
Proof.
  destruct (daily_stats db !! (u, today)) as [row|] eqn:H.
  - exists row. rewrite (ensureToday_existing _ _ _ _ _ H). auto.
  - rewrite (ensureToday_fresh _ _ _ _ H).
    destruct (bonus_eligible yesterday u db); eexists; cbn;
      (split; [reflexivity | apply lookup_insert_eq]).
Qed.

(** ** POST /api/log *)

Lemma truthy_JStr ty : truthy (JStr ty) = true <-> ty <> ""%string.
Proof.
  cbn. rewrite negb_true_iff. split.
  - intros H. by apply String.eqb_neq.
  - intros H. by apply String.eqb_neq.
Qed.

Lemma api_log_body_number clk u ty q db :
  let today := handler_today clk in
  let db0 := (ensureToday (ensure_today clk) (ensure_yesterday clk) u db).2 in
  api_log_body clk u ty (Some q) db =
    match daily_stats db0 !! (u, today) with
    | Some stats =>
        (answered u (Z.of_nat (S (length (activity_log db0)))) stats
           (updated_row stats q) (committed u today ty q stats db0),
         committed u today ty q stats db0)
    | None => (inr TypeErrorUndefined, logged_only u today ty q db0)
    end.
Proof.
  intros today db0. unfold api_log_body, bind.
  destruct (ensureToday_returns (ensure_today clk) (ensure_yesterday clk) u db)
    as (row & E & _).
  fold db0 in E. rewrite E. cbn. fold today.
  destruct (daily_stats db0 !! (u, today)) as [stats|] eqn:Hs; [|reflexivity].
  cbn. unfold getTotalEnergy, sql_sum, answered, committed.
  cbn [activity_log].
  destruct (sum_overflows
              (user_points u (activity_log db0 ++ [mkLog u ty q today])));
    [reflexivity|].
  cbn. rewrite lookup_insert_eq. reflexivity.
Qed.

Lemma api_log_body_null clk u ty db :
  api_log_body clk u ty None db =
    (inr SqliteNotNull,
     (ensureToday (ensure_today clk) (ensure_yesterday clk) u db).2).
Proof.
  unfold api_log_body, bind.
  destruct (ensureToday_returns (ensure_today clk) (ensure_yesterday clk) u db)
    as (row & E & _).
  rewrite E. reflexivity.
Qed.

Lemma api_log_number clk u ty q db :
  ty <> ""%string ->
  api_log clk u (JStr ty) (JNum q) db =
    Some (to_reply (api_log_body clk u ty (Some q) db).1,
          (api_log_body clk u ty (Some q) db).2).
Proof.
  intros Hty. unfold api_log, log_rejected.
  apply truthy_JStr in Hty. rewrite Hty. cbn.
  by destruct (api_log_body clk u ty (Some q) db).
Qed.

Lemma api_log_null clk u ty db :
  ty <> ""%string ->
  api_log clk u (JStr ty) JNull db =
    Some (Status500 SqliteNotNull,
          (ensureToday (ensure_today clk) (ensure_yesterday clk) u db).2).
Proof.
  intros Hty. unfold api_log, log_rejected.
  apply truthy_JStr in Hty. rewrite Hty. cbn.
  rewrite api_log_body_null. reflexivity.
Qed.

Lemma api_log_empty_type clk u p db :
  api_log clk u (JStr "") p db = Some (Status400, db).
Proof. reflexivity. Qed.

(** ** One request *)

Lemma ensured_cases clk u db :
  ensured clk u db =
    match daily_stats db !! (u, ensure_today clk) with
    | Some _ => db
    | None =>
        if bonus_eligible (ensure_yesterday clk) u db
        then mkStore (<[(u, ensure_today clk) := bonus_row]> (daily_stats db))
                     (activity_log db ++ [bonus_entry u (ensure_today clk)])
        else mkStore (<[(u, ensure_today clk) := plain_row]> (daily_stats db))
                     (activity_log db)
    end.
Proof.
  unfold ensured.
  destruct (daily_stats db !! (u, ensure_today clk)) as [row|] eqn:H.
  - by rewrite (ensureToday_existing _ _ _ _ _ H).
  - rewrite (ensureToday_fresh _ _ _ _ H).
    by destruct (bonus_eligible (ensure_yesterday clk) u db).
Qed.

Lemma step_GetMe clk u db : step db (GetMe clk u) = ensured clk u db.
Proof.
  unfold step, api_me, api_me_body, bind, ensured.
  destruct (ensureToday_returns (ensure_today clk) (ensure_yesterday clk) u db)
    as (row & E & _).
  rewrite E. unfold getTotalEnergy.
  destruct (sql_sum
              (user_points u
                 (activity_log
                    (ensureToday (ensure_today clk) (ensure_yesterday clk) u db).2)));
    reflexivity.
Qed.

Lemma step_PostLog clk u ty p db :
  step db (PostLog clk u ty p) =
    if String.eqb ty "" then db
    else
      match p with
      | None => ensured clk u db
      | Some q =>
          match daily_stats (ensured clk u db) !! (u, handler_today clk) with
          | Some stats =>
              committed u (handler_today clk) ty q stats (ensured clk u db)
          | None => logged_only u (handler_today clk) ty q (ensured clk u db)
          end
      end.
Proof.
  unfold step. destruct (String.eqb ty "") eqn:Hty.
  - apply String.eqb_eq in Hty. subst ty. reflexivity.
  - apply String.eqb_neq in Hty. destruct p as [q|]; cbn [points_js].
    + rewrite (api_log_number _ _ _ _ _ Hty), api_log_body_number.
      fold (ensured clk u db).
      by destruct (daily_stats (ensured clk u db) !! (u, handler_today clk)).
    + by rewrite (api_log_null _ _ _ _ Hty).
Qed.

(** Every typed request is followed to its end. *)
Lemma api_log_followed clk u ty p db :
  exists r db', api_log clk u (JStr ty) (points_js p) db = Some (r, db').
Proof.
  destruct (String.eqb ty "") eqn:Hty.
  - apply String.eqb_eq in Hty. subst ty. eexists _, _. reflexivity.
  - apply String.eqb_neq in Hty. destruct p as [q|]; cbn [points_js].
    + rewrite (api_log_number _ _ _ _ _ Hty). eauto.
    + rewrite (api_log_null _ _ _ _ Hty). eauto.
Qed.

(** ** The battery ledger *)

Lemma balance_insert u k r t l l' :
  battery_balance u (mkStore (<[k := r]> t) l) =
    battery_balance u (mkStore t l')
    + (contrib battery_earned u k r - contrib bonus_applied u k r)
    - match t !! k with
      | Some r0 => contrib battery_earned u k r0 - contrib bonus_applied u k r0
      | None => 0
      end.
Proof.
  unfold battery_balance. cbn [daily_stats].
  rewrite !sum_col_insert. destruct (t !! k); lia.
Qed.

Lemma sum_col_ext (f g : daily_row -> Z) (u : Z)
    (t : gmap (Z * date) daily_row) :
  (forall k r, t !! k = Some r -> f r = g r) ->
  sum_col f u t = sum_col g u t.
Proof.
  induction t as [|k r t Hk IH] using map_ind; intros Hfg.
  - by rewrite !sum_col_empty.
  - rewrite !sum_col_insert_fresh by done. unfold contrib.
    rewrite (Hfg k r) by apply lookup_insert_eq.
    rewrite IH; [done|]. intros k' r' H'. apply (Hfg k').
    rewrite lookup_insert_ne; [done|]. intros ->. congruence.
Qed.

Lemma ensured_balance clk u u' db :
  0 <= battery_balance u' db -> 0 <= battery_balance u' (ensured clk u db).
Proof.
  intros Hb. rewrite ensured_cases.
  destruct (daily_stats db !! (u, ensure_today clk)) eqn:Hk; [done|].
  destruct (bonus_eligible (ensure_yesterday clk) u db) eqn:He.
  - rewrite (balance_insert _ _ _ _ _ (activity_log db)), Hk.
    replace (mkStore (daily_stats db) (activity_log db)) with db by by destruct db.
    unfold contrib, bonus_row. cbn.
    destruct (decide (u = u')) as [->|]; [|lia].
    unfold bonus_eligible in He.
    destruct (daily_stats db !! (u', ensure_yesterday clk)); [|done].
    apply andb_true_iff in He as [_ He]. apply Z.ltb_lt in He. lia.
  - rewrite (balance_insert _ _ _ _ _ (activity_log db)), Hk.
    replace (mkStore (daily_stats db) (activity_log db)) with db by by destruct db.
    unfold contrib, plain_row. cbn. destruct (decide (u = u')); lia.
Qed.

Lemma updated_row_battery stats q :
  battery_earned (updated_row stats q) = battery_earned stats
  \/ (battery_earned stats = 0 /\ battery_earned (updated_row stats q) = 1).
Proof.
  unfold updated_row. cbn.
  destruct (Qle_bool _ _); cbn; [|by left].
  unfold truthyZ. destruct (battery_earned stats =? 0) eqn:E; cbn; [|by left].
  apply Z.eqb_eq in E. by right.
Qed.

Lemma committed_balance u u' today ty q stats db :
  daily_stats db !! (u, today) = Some stats ->
  0 <= battery_balance u' db ->
  0 <= battery_balance u' (committed u today ty q stats db).
Proof.
  intros Hk Hb. unfold committed.
  rewrite (balance_insert _ _ _ _ _ (activity_log db)), Hk.
  replace (mkStore (daily_stats db) (activity_log db)) with db by by destruct db.
  unfold contrib. destruct (decide ((u, today).1 = u')); [|lia].
  change (bonus_applied (updated_row stats q)) with (bonus_applied stats).
  destruct (updated_row_battery stats q) as [->|[-> ->]]; lia.
Qed.

Lemma step_balance db r u' :
  0 <= battery_balance u' db -> 0 <= battery_balance u' (step db r).
Proof.
  intros Hb. destruct r as [clk u|clk u ty p].
  - rewrite step_GetMe. by apply ensured_balance.
  - rewrite step_PostLog. destruct (String.eqb ty ""); [done|].
    destruct p as [q|]; [|by apply ensured_balance].
    destruct (daily_stats (ensured clk u db) !! (u, handler_today clk)) eqn:Hk.
    + apply committed_balance; [done|]. by apply ensured_balance.
    + unfold logged_only, battery_balance. cbn.
      by apply (ensured_balance clk u u') in Hb.
Qed.

Lemma flags01_insert (t : gmap (Z * date) daily_row) k r :
  flags01 t ->
  (battery_earned r = 0 \/ battery_earned r = 1) ->
  (bonus_applied r = 0 \/ bonus_applied r = 1) ->
  flags01 (<[k := r]> t).
Proof.
  intros Ht Hb Hu k' r'. rewrite lookup_insert.
  destruct (decide (k = k')); [|by apply Ht].
  intros [= <-]. by split.
Qed.

Lemma ensured_flags01 clk u db :
  flags01 (daily_stats db) -> flags01 (daily_stats (ensured clk u db)).
Proof.
  intros Ht. rewrite ensured_cases.
  destruct (daily_stats db !! (u, ensure_today clk)); [done|].
  destruct (bonus_eligible (ensure_yesterday clk) u db); cbn;
    apply flags01_insert; cbn; auto.
Qed.

Lemma step_flags01 db r :
  flags01 (daily_stats db) -> flags01 (daily_stats (step db r)).
Proof.
  intros Ht. destruct r as [clk u|clk u ty p].
  - rewrite step_GetMe. by apply ensured_flags01.
  - rewrite step_PostLog. destruct (String.eqb ty ""); [done|].
    destruct p as [q|]; [|by apply ensured_flags01].
    apply (ensured_flags01 clk u) in Ht.
    destruct (daily_stats (ensured clk u db) !! (u, handler_today clk))
      as [stats|] eqn:Hk; [|done].
    destruct (Ht _ _ Hk) as [Hb Hu]. cbn. apply flags01_insert; [done| |done].
    destruct (updated_row_battery stats q) as [->|[_ ->]]; auto.
Qed.

Lemma reachable_flags01 db : reachable db -> flags01 (daily_stats db).
Proof.
  induction 1 as [|db r _ IH].
  - intros k r. cbn. by rewrite lookup_empty.
  - by apply step_flags01.
Qed.

Lemma reachable_balance_nonneg db u : reachable db -> 0 <= battery_balance u db.
Proof.
  induction 1 as [|db r _ IH].
  - unfold battery_balance. cbn. rewrite !sum_col_empty. lia.
  - by apply step_balance.
Qed.

Lemma sum_col_count_set (col : daily_row -> Z) (u : Z)
    (t : gmap (Z * date) daily_row) :
  (forall k r, t !! k = Some r -> col r = 0 \/ col r = 1) ->
  sum_col col u t = count_set col u t.
Proof.
  unfold count_set.
  induction t as [|k r t Hk IH] using map_ind; intros H01.
  - by rewrite sum_col_empty, map_to_list_empty.
  - rewrite sum_col_insert_fresh by done.
    rewrite (map_to_list_insert t k r Hk), filter_cons. cbn [fst snd].
    rewrite IH.
    2:{ intros k' r' H'. apply (H01 k').
        rewrite lookup_insert_ne; [done|]. intros ->. congruence. }
    unfold contrib.
    destruct (H01 k r (lookup_insert_eq t k r)) as [E|E]; rewrite E;
      destruct (decide (k.1 = u)) as [Hu|Hu].
    + rewrite decide_False by (by intros [_ ?]). lia.
    + rewrite decide_False by (by intros [? _]). lia.
    + rewrite decide_True by done. cbn [length]. lia.
    + rewrite decide_False by (by intros [? _]). lia.
Qed.

Lemma flags01_spec_balance db u :
  flags01 (daily_stats db) -> battery_balance u db = spec_balance u db.
Proof.
  intros Ht. unfold battery_balance, spec_balance.
  f_equal; apply sum_col_count_set; intros k r Hk; by destruct (Ht k r Hk).
Qed.

(** ** Existing records survive every request *)

Lemma ensured_lookup_existing clk u0 db k row :
  daily_stats db !! k = Some row -> daily_stats (ensured clk u0 db) !! k = Some row.
Proof.
  intros Hk. rewrite ensured_cases.
  destruct (daily_stats db !! (u0, ensure_today clk)) eqn:H0; [done|].
  assert ((u0, ensure_today clk) <> k) by (intros <-; congruence).
  destruct (bonus_eligible (ensure_yesterday clk) u0 db); cbn;
    by rewrite lookup_insert_ne.
Qed.

Lemma updated_row_had_battery stats q :
  truthyZ (battery_earned stats) = true ->
  battery_earned (updated_row stats q) = battery_earned stats.
Proof.
  intros H. unfold updated_row. cbn. rewrite H.
  by rewrite andb_false_r.
Qed.

Lemma step_keeps_battery db r u d row :
  daily_stats db !! (u, d) = Some row ->
  truthyZ (battery_earned row) = true ->
  exists row', daily_stats (step db r) !! (u, d) = Some row'
               /\ battery_earned row' = battery_earned row.
Proof.
  intros Hk Hb. destruct r as [clk u0|clk u0 ty p].
  - rewrite step_GetMe. exists row. split; [|done].
    by apply ensured_lookup_existing.
  - rewrite step_PostLog. destruct (String.eqb ty ""); [by exists row|].
    apply (ensured_lookup_existing clk u0) in Hk.
    destruct p as [q|]; [|by exists row].
    destruct (daily_stats (ensured clk u0 db) !! (u0, handler_today clk))
      as [stats|] eqn:Hs; [|by exists row].
    cbn. destruct (decide ((u0, handler_today clk) = (u, d))) as [E|E].
    + rewrite E in Hs |- *. rewrite lookup_insert_eq.
      assert (stats = row) as -> by congruence.
      eexists. split; [done|]. by apply updated_row_had_battery.
    + rewrite lookup_insert_ne by done. by exists row.
Qed.

Lemma run_keeps_battery rs db u d row :
  daily_stats db !! (u, d) = Some row ->
  truthyZ (battery_earned row) = true ->
  exists row', daily_stats (run rs db) !! (u, d) = Some row'
               /\ battery_earned row' = battery_earned row.
Proof.
  revert db row. induction rs as [|r rs IH]; intros db row Hk Hb.
  - by exists row.
  - cbn. destruct (step_keeps_battery db r u d row Hk Hb) as (row1 & H1 & E1).
    destruct (IH (step db r) row1 H1) as (row2 & H2 & E2); [congruence|].
    exists row2. split; [done|congruence].
Qed.

(** ** The energy of a day and the log of that day *)

Lemma replay_snoc l q : replay (l ++ [q]) = clamp_add (replay l) q.
Proof. unfold replay. by rewrite fold_left_app. Qed.

Lemma day_points_app u d l1 l2 :
  day_points u d (l1 ++ l2) = day_points u d l1 ++ day_points u d l2.
Proof. unfold day_points. by rewrite filter_app, map_app. Qed.

Lemma day_points_entry u d ty q :
  day_points u d [mkLog u ty q d] = [q].
Proof. unfold day_points. rewrite filter_cons_True by done. reflexivity. Qed.

Lemma ensured_day_ok u d y db :
  ledger_consistent u d db ->
  exists row0,
    ensureToday d y u db = (inl (Some row0), ensured (on_day d y) u db)
    /\ day_ok u d (ensured (on_day d y) u db) row0
    /\ (daily_stats db !! (u, d) = None -> row0 = plain_row \/ row0 = bonus_row).
Proof.
  unfold ledger_consistent, day_ok.
  change (ensured (on_day d y) u db) with (ensureToday d y u db).2.
  destruct (daily_stats db !! (u, d)) as [row|] eqn:Hk; intros Hc.
  - exists row. rewrite (ensureToday_existing _ _ _ _ _ Hk). cbn.
    repeat split; [done|done|]. intros [=].
  - rewrite (ensureToday_fresh _ _ _ _ Hk).
    destruct (bonus_eligible y u db); eexists;
      cbn [snd daily_stats activity_log];
      (split; [reflexivity|]); rewrite lookup_insert_eq.
    + rewrite day_points_app, Hc. unfold bonus_entry.
      rewrite day_points_entry. cbn. auto.
    + rewrite Hc. cbn. auto.
Qed.

Lemma step_activity_existing u d c db row :
  c.1.2 <> ""%string ->
  daily_stats db !! (u, d) = Some row ->
  step db (activity u d c) = committed u d c.1.2 c.2 row db.
Proof.
  intros Hty Hk. unfold activity. rewrite step_PostLog.
  apply String.eqb_neq in Hty. rewrite Hty.
  assert (ensured (on_day d c.1.1) u db = db) as ->.
  { rewrite ensured_cases. cbn. by rewrite Hk. }
  cbn. by rewrite Hk.
Qed.

Lemma committed_day_ok u d ty q row db :
  day_ok u d db row ->
  day_ok u d (committed u d ty q row db) (updated_row row q).
Proof.
  intros [Hk He]. unfold committed. split; cbn [daily_stats activity_log].
  - apply lookup_insert_eq.
  - rewrite day_points_app, day_points_entry, replay_snoc, <- He. reflexivity.
Qed.

Lemma run_activities u d cs : forall db row,
  Forall (fun c : date * string * Q => c.1.2 <> ""%string) cs ->
  day_ok u d db row ->
  exists row',
    day_ok u d (run (map (activity u d) cs) db) row'
    /\ energy row' = fold_left clamp_add (map snd cs) (energy row)
    /\ activity_log (run (map (activity u d) cs) db)
       = activity_log db ++ map (fun c => mkLog u c.1.2 c.2 d) cs.
Proof.
  induction cs as [|c cs IH]; intros db row Hv Hok.
  - exists row. cbn. by rewrite app_nil_r.
  - inversion Hv as [|? ? Hc Hcs]; subst. cbn [map run fold_left].
    destruct Hok as [Hk He].
    rewrite (step_activity_existing u d c db row Hc Hk).
    destruct (IH (committed u d c.1.2 c.2 row db) (updated_row row c.2) Hcs)
      as (row' & Hok' & He' & Hl').
    { by apply committed_day_ok. }
    exists row'. split; [done|]. split; [done|].
    fold (run (map (activity u d) cs) (committed u d c.1.2 c.2 row db)).
    rewrite Hl'. cbn. by rewrite <- app_assoc.
Qed.

Lemma step_activity u d c db row0 :
  c.1.2 <> ""%string ->
  daily_stats (ensured (on_day d c.1.1) u db) !! (u, d) = Some row0 ->
  step db (activity u d c)
  = committed u d c.1.2 c.2 row0 (ensured (on_day d c.1.1) u db).
Proof.
  intros Hty Hk. unfold activity. rewrite step_PostLog.
  apply String.eqb_neq in Hty. rewrite Hty.
  cbn [handler_today on_day]. by rewrite Hk.
Qed.

Lemma fold_clamp_nonneg l e : l <> [] -> (0 <= fold_left clamp_add l e)%Q.
Proof.
  destruct l as [|x l _] using rev_ind; [done|]. intros _.
  rewrite fold_left_app. cbn. apply math_max0_nonneg.
Qed.

Lemma day_points_other u d u0 d0 ty q :
  (u0, d0) <> (u, d) -> day_points u d [mkLog u0 ty q d0] = [].
Proof.
  intros Hne. unfold day_points. rewrite filter_cons_False; [done|].
  cbn. intros [-> ->]. by apply Hne.
Qed.

Lemma ensured_consistent clk u0 db :
  (forall u d, ledger_consistent u d db) ->
  forall u d, ledger_consistent u d (ensured clk u0 db).
Proof.
  intros Hc u d. rewrite ensured_cases.
  destruct (daily_stats db !! (u0, ensure_today clk)) eqn:H0; [by apply Hc|].
  pose proof (Hc u0 (ensure_today clk)) as Hnew.
  pose proof (Hc u d) as Hold.
  unfold ledger_consistent in *. rewrite H0 in Hnew.
  destruct (bonus_eligible (ensure_yesterday clk) u0 db);
    cbn [daily_stats activity_log];
    destruct (decide ((u0, ensure_today clk) = (u, d))) as [E|E].
  - injection E as <- <-. rewrite lookup_insert_eq, day_points_app, Hnew.
    unfold bonus_entry. by rewrite day_points_entry.
  - rewrite lookup_insert_ne by done. unfold bonus_entry.
    rewrite day_points_app, (day_points_other _ _ _ _ _ _ E), app_nil_r. done.
  - injection E as <- <-. by rewrite lookup_insert_eq, Hnew.
  - by rewrite lookup_insert_ne.
Qed.

Lemma committed_consistent u0 d0 ty q stats db :
  (forall u d, ledger_consistent u d db) ->
  daily_stats db !! (u0, d0) = Some stats ->
  forall u d, ledger_consistent u d (committed u0 d0 ty q stats db).
Proof.
  intros Hc Hk u d. pose proof (Hc u d) as Hold.
  unfold ledger_consistent, committed in *. cbn [daily_stats activity_log].
  destruct (decide ((u0, d0) = (u, d))) as [E|E].
  - injection E as <- <-. rewrite Hk in Hold.
    rewrite lookup_insert_eq, day_points_app, day_points_entry, replay_snoc.
    by rewrite <- Hold.
  - rewrite lookup_insert_ne by done.
    by rewrite day_points_app, (day_points_other _ _ _ _ _ _ E), app_nil_r.
Qed.

(** The hypothesis of C1 holds in every store the server reaches as long as
    no request is handled across midnight. *)
Lemma day_reachable_consistent db :
  day_reachable db -> forall u d, ledger_consistent u d db.
Proof.
  induction 1 as [|db clk u0 _ IH|db clk u0 ty p _ IH Hclk].
  - intros u d. reflexivity.
  - rewrite step_GetMe. by apply ensured_consistent.
  - rewrite step_PostLog. destruct (String.eqb ty ""); [done|].
    pose proof (ensured_consistent clk u0 db IH) as IH'.
    destruct p as [q|]; [|done].
    destruct (ensureToday_returns (ensure_today clk) (ensure_yesterday clk) u0 db)
      as (stats & _ & Hk).
    fold (ensured clk u0 db) in Hk. rewrite <- Hclk in Hk. rewrite Hk.
    by apply committed_consistent.
Qed.

(** ** The clamp, the overflow of [SUM], and the answer of POST /api/log *)

Lemma math_max0_Qmax x : (math_max0 x == Qmax 0 x)%Q.
Proof.
  unfold math_max0. destruct (Qle_bool 0 x) eqn:E.
  - apply Qle_bool_iff in E. symmetry. by apply Q.max_r.
  - symmetry. apply Q.max_l. apply Qlt_le_weak, Qnot_le_lt. intros Hle.
    apply Qle_bool_iff in Hle. congruence.
Qed.

Lemma Qle_bool_math_max0 c x :
  Qle_bool c (math_max0 x) = Qle_bool c (Qmax 0 x).
Proof.
  destruct (Qle_bool c (math_max0 x)) eqn:A, (Qle_bool c (Qmax 0 x)) eqn:B;
    try done.
  - apply Qle_bool_iff in A. rewrite math_max0_Qmax in A.
    apply Qle_bool_iff in A. congruence.
  - apply Qle_bool_iff in B. rewrite <- math_max0_Qmax in B.
    apply Qle_bool_iff in B. congruence.
Qed.

Lemma fold_clamp_Qmax l : forall e e',
  (e == e')%Q ->
  (fold_left clamp_add l e
   == fold_left (fun e p => Qmax 0 (e + p)) l e')%Q.
Proof.
  induction l as [|p l IH]; intros e e' He; [done|].
  cbn [fold_left]. apply IH. unfold clamp_add.
  rewrite math_max0_Qmax. by rewrite He.
Qed.

Lemma to_reply_answered u id stats us db2 :
  to_reply (answered u id stats us db2)
  = if sum_overflows (user_points u (activity_log db2))
    then Status500 SqliteIntegerOverflow
    else Status200 (answer u id stats us db2).
Proof.
  unfold answered. by destruct (sum_overflows (user_points u (activity_log db2))).
Qed.

(** A request with a non-empty type and numeric points whose clock reads
    fall on one day: both writes are in, whatever the answer. *)
Lemma api_log_same_day clk u ty q db :
  ty <> ""%string ->
  handler_today clk = ensure_today clk ->
  exists stats,
    daily_stats (ensured clk u db) !! (u, handler_today clk) = Some stats
    /\ api_log clk u (JStr ty) (JNum q) db
       = Some (to_reply
                 (answered u (Z.of_nat (S (length (activity_log (ensured clk u db)))))
                    stats (updated_row stats q)
                    (committed u (handler_today clk) ty q stats (ensured clk u db))),
               committed u (handler_today clk) ty q stats (ensured clk u db)).
Proof.
  intros Hty Hclk.
  destruct (ensureToday_returns (ensure_today clk) (ensure_yesterday clk) u db)
    as (stats & _ & Hk).
  fold (ensured clk u db) in Hk. rewrite <- Hclk in Hk.
  exists stats. split; [done|].
  rewrite (api_log_number _ _ _ _ _ Hty), api_log_body_number.
  fold (ensured clk u db). by rewrite Hk.
Qed.

Lemma sum_overflows_real l :
  Exists (fun q => stored_as_integer q = false) l -> sum_overflows l = false.
Proof.
  intros H. unfold sum_overflows.
  assert (forallb stored_as_integer l = false) as ->; [|done].
  induction H as [q l Hq|q l _ IH]; cbn [forallb].
  - by rewrite Hq.
  - rewrite IH. apply andb_false_r.
Qed.

(** ** The scenarios of the specification, evaluated *)

(** A new user logs 70 points: energy 70, battery earned, balance 1. *)
Example scenario_A_reply :
  exists db',
    scenario_A
    = Some (Status200 (mkLogBody 1 70 70 1 true true), db')
    /\ daily_stats db' !! (7, "2024-05-02"%string) = Some (mkDaily 70 1 0).
Proof. eexists. split; [vm_compute; reflexivity|reflexivity]. Qed.

(** Yesterday's battery with balance 1: today opens at 20 with the bonus
    entry in the log, and the balance drops to 0. *)
Example scenario_B_bonus :
  api_me clk1 7 db_yesterday
  = (Status200 (mkMe 90 20 0 false true), ensured clk1 7 db_yesterday)
  /\ activity_log (ensured clk1 7 db_yesterday)
     = [mkLog 7 "read" 70 "2024-05-01"; mkLog 7 "Battery Bonus" 20 "2024-05-02"].
Proof. split; vm_compute; reflexivity. Qed.

(** Energy 60, then -10: energy 50 and no battery. *)
Example scenario_C_penalty :
  daily_stats
    (run (map (activity 7 "2024-05-02")
              [("2024-05-01", "read", 60%Q); ("2024-05-01", "nap", (-10)%Q)])
         empty_db) !! (7, "2024-05-02"%string)
  = Some (mkDaily 50 0 0).
Proof. vm_compute. reflexivity. Qed.

(** Energy 64, then +1 earns the battery, then +5 does not earn a second. *)
Example scenario_D_threshold :
  let db64 := step empty_db (activity 7 "2024-05-02" ("2024-05-01", "read", 64%Q)) in
  exists db65 db70,
    api_log clk1 7 (JStr "quiz") (JNum 1) db64
    = Some (Status200 (mkLogBody 2 65 65 1 true true), db65)
    /\ api_log clk1 7 (JStr "quiz") (JNum 5) db65
       = Some (Status200 (mkLogBody 3 70 70 1 true false), db70).
Proof.
  eexists _, _. split; [vm_compute; reflexivity|vm_compute; reflexivity].
Qed.

(** Penalties below zero clamp the energy at 0 while the log keeps -100. *)
Example clamp_at_zero :
  let db := run (map (activity 7 "2024-05-02")
                     [("2024-05-01", "read", 30%Q); ("2024-05-01", "nap", (-100)%Q)])
                empty_db in
  daily_stats db !! (7, "2024-05-02"%string) = Some (mkDaily 0 0 0)
  /\ day_points 7 "2024-05-02" (activity_log db) = [30%Q; (-100)%Q].
Proof. split; vm_compute; reflexivity. Qed.

(** * The claims *)

(** C1.  For every sequence of activities of one user on one day (any types,
    any numeric points), starting from a store whose cached energy for that
    day agrees with the log: the first call starts from the record
    [ensureToday] returns (energy 0 or 20 when it creates it); the stored
    energy afterwards is the clamp rule [max(0, e + p)] folded over the
    points in order, both as the handler computes it and as the rational
    maximum [Qmax 0 (e + p)]; it is not negative; it equals the replay of the
    clamp rule from 0 over the log entries of that user and date; and the log
    has received exactly one entry per call, with the points as submitted. *)
Theorem energy_replays_clamped_log u d db (c : date * string * Q)
    (cs : list (date * string * Q)) :
  ledger_consistent u d db ->
  Forall (fun c : date * string * Q => c.1.2 <> ""%string) (c :: cs) ->
  exists row0 row,
    ensureToday d c.1.1 u db = (inl (Some row0), ensured (on_day d c.1.1) u db)
    /\ (daily_stats db !! (u, d) = None ->
        energy row0 = 0%Q \/ energy row0 = 20%Q)
    /\ daily_stats (run (map (activity u d) (c :: cs)) db) !! (u, d) = Some row
    /\ energy row = fold_left clamp_add (map snd (c :: cs)) (energy row0)
    /\ (energy row
        == fold_left (fun e p => Qmax 0 (e + p)) (map snd (c :: cs)) (energy row0))%Q
    /\ (0 <= energy row)%Q
    /\ energy row
       = replay (day_points u d
                   (activity_log (run (map (activity u d) (c :: cs)) db)))
    /\ (energy row
        == fold_left (fun e p => Qmax 0 (e + p))
             (day_points u d
                (activity_log (run (map (activity u d) (c :: cs)) db))) 0)%Q
    /\ activity_log (run (map (activity u d) (c :: cs)) db)
       = activity_log (ensured (on_day d c.1.1) u db)
         ++ map (fun c => mkLog u c.1.2 c.2 d) (c :: cs).
Proof.
  intros Hc Hv.
  destruct (ensured_day_ok u d c.1.1 db Hc) as (row0 & E0 & Hok0 & Hnew).
  destruct (run_activities u d (c :: cs) (ensured (on_day d c.1.1) u db) row0 Hv Hok0)
    as (row & [Hk He] & Hfold & Hlog).
  assert (run (map (activity u d) (c :: cs)) db
          = run (map (activity u d) (c :: cs)) (ensured (on_day d c.1.1) u db))
    as Hrun.
  { inversion Hv as [|? ? Hty _]; subst. destruct Hok0 as [Hk0 _].
    cbn [map run fold_left].
    rewrite (step_activity u d c db row0 Hty Hk0).
    by rewrite (step_activity_existing u d c _ row0 Hty Hk0). }
  exists row0, row. rewrite Hrun.
  split; [done|]. split.
  { intros Hn. destruct (Hnew Hn) as [-> | ->]; cbn; auto. }
  split; [done|]. split; [done|]. split.
  { rewrite Hfold. by apply fold_clamp_Qmax. }
  split.
  { rewrite Hfold. by apply fold_clamp_nonneg. }
  split; [done|]. split; [|done].
  rewrite He. unfold replay. by apply fold_clamp_Qmax.
Qed.

Lemma energy_replays_clamped_log_witness :
  ledger_consistent 7 "2024-05-02" empty_db
  /\ exists row,
       daily_stats
         (run (map (activity 7 "2024-05-02")
                   [("2024-05-01", "read", 70%Q); ("2024-05-01", "nap", (-100)%Q);
                    ("2024-05-01", "quiz", 12%Q)])
              empty_db) !! (7, "2024-05-02"%string) = Some row
       /\ energy row = 12%Q
       /\ (energy row == Qmax 0 (Qmax 0 (Qmax 0 (0 + 70) + -100) + 12))%Q.
Proof.
  assert (ledger_consistent 7 "2024-05-02" empty_db) as Hc by reflexivity.
  split; [exact Hc|].
  destruct (energy_replays_clamped_log 7 "2024-05-02" empty_db
              ("2024-05-01", "read", 70%Q)%string
              [("2024-05-01", "nap", (-100)%Q)%string;
               ("2024-05-01", "quiz", 12%Q)%string] Hc)
    as (row0 & row & E0 & Hs & Hk & He & Hmax & _).
  - repeat constructor; discriminate.
  - assert (row0 = plain_row) as ->.
    { vm_compute in E0. injection E0 as Hrow. by subst row0. }
    exists row. split; [exact Hk|]. split; [rewrite He; reflexivity|exact Hmax].
Defined.

(** C2.  Once the record of [(u, d)] has [battery_earned] set, it keeps that
    value through every later sequence of requests (of any user, on any day,
    with any points), and a further [POST /api/log] of [u] on day [d] is
    answered, leaves the flag as it was, and, when it answers 200, reports
    [newBattery = false] with [batEarned = true]. *)
Theorem battery_earned_sticky u d row db rs clk ty p :
  daily_stats db !! (u, d) = Some row ->
  truthyZ (battery_earned row) = true ->
  handler_today clk = d ->
  exists row1 r db2 row2,
    daily_stats (run rs db) !! (u, d) = Some row1
    /\ battery_earned row1 = battery_earned row
    /\ api_log clk u (JStr ty) (points_js p) (run rs db) = Some (r, db2)
    /\ daily_stats db2 !! (u, d) = Some row2
    /\ battery_earned row2 = battery_earned row
    /\ (forall body, r = Status200 body ->
          lb_newBattery body = false /\ lb_batEarned body = true).
Proof.
  intros Hk Hb <-.
  destruct (run_keeps_battery rs db u _ row Hk Hb) as (row1 & H1 & E1).
  assert (truthyZ (battery_earned row1) = true) as Hb1 by congruence.
  destruct (step_keeps_battery (run rs db) (PostLog clk u ty p) u _ row1 H1 Hb1)
    as (row2 & H2 & E2).
  destruct (api_log_followed clk u ty p (run rs db)) as (r & db2 & Hr).
  exists row1, r, db2, row2.
  cbn [step] in H2. rewrite Hr in H2.
  repeat (split; [done || congruence|]).
  intros body ->.
  destruct (String.eqb ty "") eqn:Hty.
  { apply String.eqb_eq in Hty. subst ty. discriminate Hr. }
  apply String.eqb_neq in Hty. destruct p as [q|]; cbn [points_js] in Hr.
  - rewrite (api_log_number _ _ _ _ _ Hty), api_log_body_number in Hr.
    fold (ensured clk u (run rs db)) in Hr.
    rewrite (ensured_lookup_existing clk u _ _ _ H1) in Hr.
    cbn [fst snd] in Hr. unfold answered in Hr.
    destruct (sum_overflows _) in Hr; [discriminate Hr|].
    injection Hr as <- _. unfold answer. cbn [lb_newBattery lb_batEarned].
    rewrite (updated_row_had_battery _ _ Hb1), Hb1. done.
  - rewrite (api_log_null _ _ _ _ Hty) in Hr. discriminate Hr.
Qed.

Lemma battery_earned_sticky_witness :
  exists row1 r db2 row2,
    daily_stats (run [PostLog clk1 7 "nap" (Some (-100)%Q)] db_A)
      !! (7, "2024-05-02"%string) = Some row1
    /\ battery_earned row1 = 1
    /\ api_log clk1 7 (JStr "walk") (points_js (Some (-5)%Q))
         (run [PostLog clk1 7 "nap" (Some (-100)%Q)] db_A) = Some (r, db2)
    /\ daily_stats db2 !! (7, "2024-05-02"%string) = Some row2
    /\ battery_earned row2 = 1
    /\ (forall body, r = Status200 body ->
          lb_newBattery body = false /\ lb_batEarned body = true).
Proof.
  apply (battery_earned_sticky 7 "2024-05-02" (mkDaily 70 1 0) db_A
           [PostLog clk1 7 "nap" (Some (-100)%Q)] clk1 "walk" (Some (-5)%Q));
    reflexivity.
Defined.

(** C3.  On the first touch of [(u, today)] (no record yet), [ensureToday]
    grants the bonus exactly when yesterday's record exists, has its battery
    and the balance (earned minus used over all records of [u]) is strictly
    positive.  With the bonus it creates the record [(20, 0, 1)] and appends
    the one log entry ["Battery Bonus"], 20 points, dated today; otherwise it
    creates [(0, 0, 0)] and leaves the log as it is.  It returns the record
    it created. *)
Theorem ensureToday_first_touch today yesterday u db :
  daily_stats db !! (u, today) = None ->
  (bonus_eligible yesterday u db = true <->
     exists y, daily_stats db !! (u, yesterday) = Some y
               /\ battery_earned y <> 0
               /\ 0 < sum_col battery_earned u (daily_stats db)
                      - sum_col bonus_applied u (daily_stats db))
  /\ ensureToday today yesterday u db =
       if bonus_eligible yesterday u db
       then (inl (Some (mkDaily 20 0 1)),
             mkStore (<[(u, today) := mkDaily 20 0 1]> (daily_stats db))
                     (activity_log db ++ [mkLog u "Battery Bonus" 20 today]))
       else (inl (Some (mkDaily 0 0 0)),
             mkStore (<[(u, today) := mkDaily 0 0 0]> (daily_stats db))
                     (activity_log db)).
Proof.
  intros Hk. split; [|by apply ensureToday_fresh].
  unfold bonus_eligible, battery_balance, truthyZ.
  destruct (daily_stats db !! (u, yesterday)) as [y|].
  - rewrite andb_true_iff, negb_true_iff, Z.eqb_neq, Z.ltb_lt. split.
    + intros [H1 H2]. by exists y.
    + intros (y' & [= <-] & H1 & H2). done.
  - split; [done|]. by intros (y & [=] & _).
Qed.

Lemma ensureToday_first_touch_witness :
  daily_stats db_yesterday !! (7, "2024-05-02"%string) = None
  /\ bonus_eligible "2024-05-01" 7 db_yesterday = true
  /\ ensureToday "2024-05-02" "2024-05-01" 7 db_yesterday =
       (inl (Some (mkDaily 20 0 1)),
        mkStore (<[(7, "2024-05-02"%string) := mkDaily 20 0 1]>
                   (daily_stats db_yesterday))
                (activity_log db_yesterday
                 ++ [mkLog 7 "Battery Bonus" 20 "2024-05-02"])).
Proof.
  assert (daily_stats db_yesterday !! (7, "2024-05-02"%string) = None) as Hk
    by reflexivity.
  assert (bonus_eligible "2024-05-01" 7 db_yesterday = true) as He
    by (vm_compute; reflexivity).
  split; [exact Hk|]. split; [exact He|].
  destruct (ensureToday_first_touch "2024-05-02" "2024-05-01" 7 db_yesterday Hk)
    as [_ E].
  rewrite He in E. exact E.
Defined.

(** C4.  A [POST /api/log] with a non-empty type and numeric points, whose
    clock reads fall on one day, writes both the log entry and the row.  With
    [stats] the record [ensureToday] leaves for today and
    [e' = max(0, stats.energy + points)]: the stored row has energy [e'], the
    flag [battery_earned] set to 1 exactly when [e' >= 65] and it was not
    set, otherwise left as it was, and [bonus_applied] carried through.  The
    request is answered 500 exactly when [SUM(points)] of the user overflows
    (line 222, after both writes); otherwise it is answered 200 and the body
    reports [newBattery] exactly when this call turned the flag from unset to
    set, the sum of all log points of the user, the energy [e'], the battery
    balance, and whether the battery is earned, all read from the store the
    call leaves. *)
Theorem api_log_battery_threshold clk u ty q db :
  ty <> ""%string ->
  handler_today clk = ensure_today clk ->
  exists stats us r db2,
    daily_stats (ensured clk u db) !! (u, handler_today clk) = Some stats
    /\ api_log clk u (JStr ty) (JNum q) db = Some (r, db2)
    /\ daily_stats db2 !! (u, handler_today clk) = Some us
    /\ energy us = math_max0 (energy stats + q)%Q
    /\ (energy us == Qmax 0 (energy stats + q))%Q
    /\ battery_earned us =
         (if Qle_bool 65 (energy us) && negb (truthyZ (battery_earned stats))
          then 1 else battery_earned stats)
    /\ (truthyZ (battery_earned stats) = false
        /\ truthyZ (battery_earned us) = true
        <-> (65 <= Qmax 0 (energy stats + q))%Q
            /\ truthyZ (battery_earned stats) = false)
    /\ bonus_applied us = bonus_applied stats
    /\ (r = Status500 SqliteIntegerOverflow <->
          sum_overflows (user_points u (activity_log db2)) = true)
    /\ (sum_overflows (user_points u (activity_log db2)) = false ->
          exists body,
            r = Status200 body
            /\ (lb_newBattery body = true <->
                  truthyZ (battery_earned stats) = false
                  /\ truthyZ (battery_earned us) = true)
            /\ lb_totalEnergy body = Qsum (user_points u (activity_log db2))
            /\ lb_todayEnergy body = energy us
            /\ lb_batteries body
               = sum_col battery_earned u (daily_stats db2)
                 - sum_col bonus_applied u (daily_stats db2)
            /\ lb_batEarned body = truthyZ (battery_earned us)).
Proof.
  intros Hty Hclk.
  destruct (api_log_same_day clk u ty q db Hty Hclk) as (stats & Hk & E).
  exists stats, (updated_row stats q). rewrite E, to_reply_answered.
  eexists _, _. split; [done|]. split; [reflexivity|].
  split; [apply lookup_insert_eq|].
  split; [reflexivity|]. split; [apply math_max0_Qmax|].
  split; [reflexivity|]. split.
  { rewrite <- math_max0_Qmax.
    unfold updated_row. cbn [battery_earned energy]. fold BAT_GOAL.
    destruct (Qle_bool BAT_GOAL (math_max0 (energy stats + q))) eqn:Hge;
      destruct (truthyZ (battery_earned stats)) eqn:Hhad; cbn [andb negb].
    - rewrite Hhad. split; [by intros [? _]|by intros [_ ?]].
    - split; [|done]. intros _. split; [|done]. by apply Qle_bool_iff.
    - rewrite Hhad. split; [by intros [? _]|by intros [_ ?]].
    - rewrite Hhad. split; [by intros [_ ?]|]. intros [H _].
      apply Qle_bool_iff in H. unfold BAT_GOAL in *. congruence. }
  split; [reflexivity|]. split.
  { destruct (sum_overflows _); split; done. }
  intros ->. eexists. split; [reflexivity|].
  unfold answer. cbn [lb_newBattery lb_totalEnergy lb_todayEnergy lb_batteries
                      lb_batEarned].
  split; [by rewrite andb_true_iff, negb_true_iff|]. done.
Qed.

Lemma api_log_battery_threshold_witness :
  exists body db2,
    api_log clk1 7 (JStr "read") (JNum 70) empty_db = Some (Status200 body, db2)
    /\ lb_newBattery body = true
    /\ lb_todayEnergy body = 70%Q.
Proof.
  destruct (api_log_battery_threshold clk1 7 "read" 70%Q empty_db)
    as (stats & us & r & db2 & Hk & E & Hu & He & _ & Hb & _ & _ & _ & Hok).
  - discriminate.
  - reflexivity.
  - assert (sum_overflows (user_points 7 (activity_log db2)) = false) as Hs.
    { vm_compute in E. injection E as _ <-. vm_compute. reflexivity. }
    destruct (Hok Hs) as (body & -> & Hn & _ & Ht & _).
    exists body, db2. split; [exact E|].
    vm_compute in Hk. injection Hk as <-.
    split.
    + apply Hn. split; [reflexivity|]. rewrite Hb, He. reflexivity.
    + rewrite Ht, He. reflexivity.
Defined.

(** C5.  When the record of [(u, today)] exists, [ensureToday] returns it
    and leaves the store as it is.  Hence a second call for the same
    [(u, today)] right after a first one returns the same record and leaves
    the store of the first call untouched: no second record, no further log
    entry. *)
Theorem ensureToday_idempotent today y1 y2 u db :
  (forall row, daily_stats db !! (u, today) = Some row ->
     ensureToday today y1 u db = (inl (Some row), db))
  /\ ensureToday today y2 u (ensureToday today y1 u db).2
     = ensureToday today y1 u db.
Proof.
  split.
  - intros row. apply ensureToday_existing.
  - destruct (ensureToday_returns today y1 u db) as (row & E & Hk).
    rewrite (ensureToday_existing _ y2 _ _ _ Hk). symmetry. exact E.
Qed.

Lemma ensureToday_idempotent_witness :
  ensureToday "2024-05-02" "2024-05-01" 7 db_A = (inl (Some (mkDaily 70 1 0)), db_A).
Proof.
  exact (proj1 (ensureToday_idempotent "2024-05-02" "2024-05-01" "2024-05-01"
                  7 db_A) (mkDaily 70 1 0) eq_refl).
Defined.

(** C6.  In every store the server can reach from the empty database, what
    [countBatteries] returns for a user is the number of the user's records
    with [battery_earned] set and the number with [bonus_applied] set, so the
    balance the handlers report is the first count minus the second; it is
    not negative; and [ensureToday] creates a record with the bonus applied
    only from a store in which the balance is strictly positive. *)
Theorem battery_balance_ledger db u :
  reachable db ->
  countBatteries u db
  = (inl (count_set battery_earned u (daily_stats db),
          count_set bonus_applied u (daily_stats db)), db)
  /\ battery_balance u db = spec_balance u db
  /\ 0 <= battery_balance u db
  /\ (forall today yesterday row db',
        daily_stats db !! (u, today) = None ->
        ensureToday today yesterday u db = (inl (Some row), db') ->
        truthyZ (bonus_applied row) = true ->
        0 < battery_balance u db).
Proof.
  intros Hr. pose proof (reachable_flags01 db Hr) as Hf.
  split.
  { unfold countBatteries. do 2 f_equal. f_equal.
    - apply sum_col_count_set. intros k r Hk. by destruct (Hf k r Hk).
    - apply sum_col_count_set. intros k r Hk. by destruct (Hf k r Hk). }
  split; [by apply flags01_spec_balance|].
  split; [by apply reachable_balance_nonneg|].
  intros today yesterday row db' Hk E Hb.
  rewrite (ensureToday_fresh _ _ _ _ Hk) in E.
  destruct (bonus_eligible yesterday u db) eqn:He.
  - unfold bonus_eligible in He.
    destruct (daily_stats db !! (u, yesterday)); [|done].
    apply andb_true_iff in He as [_ He]. by apply Z.ltb_lt.
  - injection E as <- _. discriminate Hb.
Qed.

(** The store after user 7 earned a battery on 2024-05-01, opened 2024-05-02
    with the bonus, and earned that day's battery too. *)
Lemma battery_balance_ledger_witness :
  reachable (step db_yesterday (PostLog clk1 7 "read" (Some 70%Q)))
  /\ count_set battery_earned 7
       (daily_stats (step db_yesterday (PostLog clk1 7 "read" (Some 70%Q)))) = 2
  /\ count_set bonus_applied 7
       (daily_stats (step db_yesterday (PostLog clk1 7 "read" (Some 70%Q)))) = 1
  /\ countBatteries 7 (step db_yesterday (PostLog clk1 7 "read" (Some 70%Q)))
     = (inl (2, 1), step db_yesterday (PostLog clk1 7 "read" (Some 70%Q)))
  /\ battery_balance 7 (step db_yesterday (PostLog clk1 7 "read" (Some 70%Q))) = 1.
Proof.
  assert (reachable (step db_yesterday (PostLog clk1 7 "read" (Some 70%Q))))
    as Hr by (do 2 apply reach_step; apply reach_empty).
  assert (count_set battery_earned 7
            (daily_stats (step db_yesterday (PostLog clk1 7 "read" (Some 70%Q))))
          = 2) as H2 by (vm_compute; reflexivity).
  assert (count_set bonus_applied 7
            (daily_stats (step db_yesterday (PostLog clk1 7 "read" (Some 70%Q))))
          = 1) as H1 by (vm_compute; reflexivity).
  destruct (battery_balance_ledger _ 7 Hr) as (Hc & Hb & _ & _).
  split; [exact Hr|]. split; [exact H2|]. split; [exact H1|]. split.
  - rewrite Hc, H2, H1. reflexivity.
  - rewrite Hb. unfold spec_balance. rewrite H2, H1. reflexivity.
Defined.

(** C7, as stated, fails.  The source opens no transaction.  A request with
    [points = null] passes the guard, [ensureToday] creates today's record
    and its bonus entry, and then the log insert fails on NOT NULL: the
    request is answered 500 and the store is not the prior one.  And a request
    handled across midnight appends its log entry and then throws before the
    record update: the entry stays in the log with no record for its date. *)
Lemma api_log_failure_keeps_writes :
  (exists db',
     api_log clk1 7 (JStr "read") JNull db_yesterday
     = Some (Status500 SqliteNotNull, db')
     /\ db' <> db_yesterday
     /\ daily_stats db_yesterday !! (7, "2024-05-02"%string) = None
     /\ daily_stats db' !! (7, "2024-05-02"%string) = Some (mkDaily 20 0 1)
     /\ activity_log db'
        = activity_log db_yesterday ++ [mkLog 7 "Battery Bonus" 20 "2024-05-02"])
  /\ (exists db',
        api_log clk_midnight 7 (JStr "read") (JNum 5) empty_db
        = Some (Status500 TypeErrorUndefined, db')
        /\ activity_log db' = [mkLog 7 "read" 5 "2024-05-01"]
        /\ daily_stats db' !! (7, "2024-05-01"%string) = None).
Proof.
  split.
  - eexists. split; [vm_compute; reflexivity|].
    split; [|split; [reflexivity|split; reflexivity]].
    intros H. apply (f_equal (fun s => length (activity_log s))) in H.
    vm_compute in H. discriminate H.
  - eexists. split; [vm_compute; reflexivity|]. split; reflexivity.
Qed.

(** C7, amended.  A request refused by the guard (a falsy [type] or absent
    [points]) leaves the store as it was.  Past the guard the statements take
    effect in order and nothing is rolled back: what [ensureToday] wrote
    stays.  For a request with a non-empty string type whose clock reads fall
    on one day: when the log insert fails on a [null] points the store is
    exactly the one [ensureToday] left, with neither the log entry nor the
    row update of the request; with numeric points both the log entry and
    the row update are in, whether the request is then answered 200 or, the
    user's [SUM(points)] overflowing at line 222, 500. *)
Theorem api_log_no_rollback clk u db :
  (forall ty p : jsval,
     log_rejected ty p = true -> api_log clk u ty p db = Some (Status400, db))
  /\ (forall ty : string, ty <> ""%string ->
        api_log clk u (JStr ty) JNull db
        = Some (Status500 SqliteNotNull, ensured clk u db))
  /\ (forall (ty : string) (q : Q),
        ty <> ""%string ->
        handler_today clk = ensure_today clk ->
        exists stats r,
          daily_stats (ensured clk u db) !! (u, handler_today clk) = Some stats
          /\ api_log clk u (JStr ty) (JNum q) db
             = Some (r,
                     mkStore
                       (<[(u, handler_today clk) := updated_row stats q]>
                          (daily_stats (ensured clk u db)))
                       (activity_log (ensured clk u db)
                        ++ [mkLog u ty q (handler_today clk)]))
          /\ (r = Status500 SqliteIntegerOverflow \/ exists body, r = Status200 body)
          /\ (r = Status500 SqliteIntegerOverflow <->
                sum_overflows
                  (user_points u
                     (activity_log (ensured clk u db)
                      ++ [mkLog u ty q (handler_today clk)])) = true)).
Proof.
  split; [|split].
  - intros ty p H. unfold api_log. by rewrite H.
  - intros ty Hty. by apply api_log_null.
  - intros ty q Hty Hclk.
    destruct (api_log_same_day clk u ty q db Hty Hclk) as (stats & Hk & E).
    exists stats. rewrite E, to_reply_answered. unfold committed.
    cbn [activity_log]. eexists. split; [done|]. split; [reflexivity|].
    destruct (sum_overflows _); split; [by left| |right; by eexists|]; by split.
Qed.

Lemma api_log_no_rollback_witness :
  api_log clk1 7 JNull JUndefined db_yesterday = Some (Status400, db_yesterday)
  /\ api_log clk1 7 (JStr "") (JNum 5) db_yesterday = Some (Status400, db_yesterday)
  /\ api_log clk1 7 (JStr "read") JNull db_yesterday
     = Some (Status500 SqliteNotNull, ensured clk1 7 db_yesterday)
  /\ handler_today clk1 = ensure_today clk1
  /\ exists stats r,
       daily_stats (ensured clk1 7 db_yesterday) !! (7, "2024-05-02"%string)
       = Some stats
       /\ api_log clk1 7 (JStr "read") (JNum 5) db_yesterday
          = Some (r,
                  mkStore
                    (<[(7, "2024-05-02"%string) := updated_row stats 5]>
                       (daily_stats (ensured clk1 7 db_yesterday)))
                    (activity_log (ensured clk1 7 db_yesterday)
                     ++ [mkLog 7 "read" 5 "2024-05-02"]))
       /\ (r = Status500 SqliteIntegerOverflow \/ exists body, r = Status200 body).
Proof.
  destruct (api_log_no_rollback clk1 7 db_yesterday) as (H400 & Hnull & Hnum).
  split; [apply H400; reflexivity|].
  split; [apply H400; reflexivity|].
  split; [apply Hnull; discriminate|].
  split; [reflexivity|].
  destruct (Hnum "read"%string 5%Q) as (stats & r & Hk & E & Hr & _);
    [discriminate|reflexivity|].
  exists stats, r. split; [exact Hk|]. split; [exact E|exact Hr].
Defined.

(** C8, as stated, fails: points [2.5] is not an integer, yet the request is
    not refused; it is answered 200. *)
Lemma non_integer_points_accepted :
  is_integer (5 # 2) = false
  /\ log_rejected (JStr "read") (JNum (5 # 2)) = false
  /\ exists body db',
       api_log clk1 7 (JStr "read") (JNum (5 # 2)) empty_db
       = Some (Status200 body, db').
Proof.
  split; [reflexivity|]. split; [reflexivity|].
  eexists _, _. vm_compute. reflexivity.
Qed.

(** C8, amended.  The guard refuses a request exactly when [type] is falsy
    (absent, [null], [false], [0] or the empty string) or [points] is absent.
    A refused request is answered 400 with the store as it was, and no other
    request is answered 400.  A non-empty string type with integer points is
    never refused. *)
Theorem api_log_validation clk u ty p db :
  (log_rejected ty p = true <-> truthy ty = false \/ p = JUndefined)
  /\ (log_rejected ty p = true ->
        api_log clk u ty p db = Some (Status400, db))
  /\ (log_rejected ty p = false ->
        forall db', api_log clk u ty p db <> Some (Status400, db'))
  /\ (forall s z, s <> ""%string ->
        log_rejected (JStr s) (JNum (inject_Z z)) = false).
Proof.
  split; [|split; [|split]].
  - unfold log_rejected. rewrite orb_true_iff, negb_true_iff.
    split; (intros [H|H]; [by left|right]); by destruct p.
  - intros H. unfold api_log. by rewrite H.
  - intros H db'. unfold api_log. rewrite H.
    destruct (bound_args ty p) as [[ty' p']|]; [|done].
    destruct (api_log_body clk u ty' p' db) as [[body|e] db1]; done.
  - intros s z Hs. unfold log_rejected. apply truthy_JStr in Hs.
    by rewrite Hs.
Qed.

Lemma api_log_validation_witness :
  log_rejected JNull (JNum 5) = true
  /\ api_log clk1 7 JNull (JNum 5) db_A = Some (Status400, db_A).
Proof.
  split; [reflexivity|].
  apply (api_log_validation clk1 7 JNull (JNum 5) db_A). reflexivity.
Defined.

(** C10.  The guard lets through every truthy [type] with every [points]
    other than [undefined]: in particular [0], [2.5], the string ["5"] and
    [null].  A number, integer or not, is appended to the log as it is and
    added to today's energy under the clamp rule, so that the stored energy
    need not be an integer; the request is then answered 200, or 500 when the
    user's [SUM(points)] overflows.  With [points = null] the guard passes,
    [ensureToday]
    runs (and may create today's record and grant the bonus), and the request
    then fails at the log insert on the NOT NULL constraint, leaving the
    store of [ensureToday]. *)
Theorem api_log_lenient_validation :
  (forall ty p, truthy ty = true -> p <> JUndefined -> log_rejected ty p = false)
  /\ log_rejected (JStr "read") (JNum 0) = false
  /\ log_rejected (JStr "read") (JNum (5 # 2)) = false
  /\ log_rejected (JStr "read") (JStr "5") = false
  /\ log_rejected (JStr "read") JNull = false
  /\ (forall clk u ty q db,
        ty <> ""%string ->
        handler_today clk = ensure_today clk ->
        exists stats us r db2,
          daily_stats (ensured clk u db) !! (u, handler_today clk) = Some stats
          /\ api_log clk u (JStr ty) (JNum q) db = Some (r, db2)
          /\ activity_log db2
             = activity_log (ensured clk u db)
               ++ [mkLog u ty q (handler_today clk)]
          /\ daily_stats db2 !! (u, handler_today clk) = Some us
          /\ energy us = math_max0 (energy stats + q)%Q
          /\ (energy us == Qmax 0 (energy stats + q))%Q
          /\ (r = Status500 SqliteIntegerOverflow \/ exists body, r = Status200 body)
          /\ (r = Status500 SqliteIntegerOverflow <->
                sum_overflows (user_points u (activity_log db2)) = true))
  /\ (exists body db2 us,
        api_log clk1 7 (JStr "read") (JNum (5 # 2)) empty_db
        = Some (Status200 body, db2)
        /\ daily_stats db2 !! (7, "2024-05-02"%string) = Some us
        /\ energy us = 5 # 2
        /\ is_integer (energy us) = false
        /\ activity_log db2 = [mkLog 7 "read" (5 # 2) "2024-05-02"])
  /\ (forall clk u ty db,
        ty <> ""%string ->
        api_log clk u (JStr ty) JNull db
        = Some (Status500 SqliteNotNull,
                (ensureToday (ensure_today clk) (ensure_yesterday clk) u db).2))
  /\ (exists db',
        api_log clk1 7 (JStr "read") JNull db_yesterday
        = Some (Status500 SqliteNotNull, db')
        /\ daily_stats db_yesterday !! (7, "2024-05-02"%string) = None
        /\ daily_stats db' !! (7, "2024-05-02"%string) = Some (mkDaily 20 0 1)
        /\ activity_log db'
           = activity_log db_yesterday
             ++ [mkLog 7 "Battery Bonus" 20 "2024-05-02"]).
Proof.
  split.
  { intros ty p Hty Hp. unfold log_rejected. rewrite Hty. by destruct p. }
  do 4 (split; [reflexivity|]).
  split.
  { intros clk u ty q db Hty Hclk.
    destruct (api_log_same_day clk u ty q db Hty Hclk) as (stats & Hk & E).
    exists stats, (updated_row stats q). rewrite E, to_reply_answered.
    eexists _, _.
    split; [done|]. split; [reflexivity|]. split; [reflexivity|].
    split; [apply lookup_insert_eq|]. split; [reflexivity|].
    split; [apply math_max0_Qmax|].
    destruct (sum_overflows _); split; [by left| |right; by eexists|]; by split. }
  split.
  { eexists _, _, _. split; [vm_compute; reflexivity|].
    split; [reflexivity|]. split; [reflexivity|]. split; reflexivity. }
  split.
  { intros clk u ty db Hty. by apply api_log_null. }
  eexists. split; [vm_compute; reflexivity|].
  split; [reflexivity|]. split; reflexivity.
Qed.

Lemma api_log_lenient_validation_witness :
  truthy JObject = true
  /\ JBool false <> JUndefined
  /\ log_rejected JObject (JBool false) = false
  /\ (exists r db2 us,
        api_log clk1 7 (JStr "read") (JNum (5 # 2)) empty_db = Some (r, db2)
        /\ daily_stats db2 !! (7, "2024-05-02"%string) = Some us
        /\ (energy us == 5 # 2)%Q
        /\ activity_log db2 = [mkLog 7 "read" (5 # 2) "2024-05-02"]
        /\ sum_overflows (user_points 7 (activity_log db2)) = false
        /\ exists body, r = Status200 body)
  /\ api_log clk1 7 (JStr "read") JNull empty_db
     = Some (Status500 SqliteNotNull, mkStore {[ (7, "2024-05-02"%string) := plain_row ]} []).
Proof.
  destruct api_log_lenient_validation
    as (Hguard & _ & _ & _ & _ & Hnum & _ & Hnull & _).
  split; [reflexivity|]. split; [discriminate|].
  split; [apply Hguard; [reflexivity|discriminate]|].
  split.
  - destruct (Hnum clk1 7 "read"%string (5 # 2) empty_db)
      as (stats & us & r & db2 & Hk & E & Hlog & Hu & _ & Hq & Hr & Hov);
      [discriminate|reflexivity|].
    vm_compute in Hk. injection Hk as <-.
    assert (activity_log db2 = [mkLog 7 "read" (5 # 2) "2024-05-02"]) as Hl
      by (rewrite Hlog; vm_compute; reflexivity).
    assert (sum_overflows (user_points 7 (activity_log db2)) = false) as Hs
      by (rewrite Hl; vm_compute; reflexivity).
    exists r, db2, us. split; [exact E|]. split; [exact Hu|].
    split; [rewrite Hq; vm_compute; reflexivity|].
    split; [exact Hl|]. split; [exact Hs|].
    destruct Hr as [->|Hb]; [|exact Hb].
    rewrite (proj1 Hov eq_refl) in Hs. discriminate Hs.
  - rewrite (Hnull clk1 7 "read"%string empty_db); [|discriminate].
    vm_compute. reflexivity.
Defined.

(** * Further properties of the engine *)

(** ** Invariants of the daily records *)

Section row_invariant.
Variable P : daily_row -> Prop.
Hypothesis P_plain : P plain_row.
Hypothesis P_bonus : P bonus_row.
Hypothesis P_updated : forall stats q, P stats -> P (updated_row stats q).

Lemma ensured_rows clk u db :
  (forall k row, daily_stats db !! k = Some row -> P row) ->
  forall k row, daily_stats (ensured clk u db) !! k = Some row -> P row.
Proof.
  intros Hall k row. rewrite ensured_cases.
  destruct (daily_stats db !! (u, ensure_today clk)); [apply Hall|].
  destruct (bonus_eligible (ensure_yesterday clk) u db);
    cbn [daily_stats]; rewrite lookup_insert;
    (destruct (decide ((u, ensure_today clk) = k)); [|apply Hall]);
    by intros [= <-].
Qed.

Lemma step_rows db r :
  (forall k row, daily_stats db !! k = Some row -> P row) ->
  forall k row, daily_stats (step db r) !! k = Some row -> P row.
Proof.
  intros Hall. destruct r as [clk u|clk u ty p].
  - rewrite step_GetMe. by apply ensured_rows.
  - rewrite step_PostLog. destruct (String.eqb ty ""); [done|].
    pose proof (ensured_rows clk u db Hall) as Hens.
    destruct p as [q|]; [|done].
    destruct (daily_stats (ensured clk u db) !! (u, handler_today clk))
      as [stats|] eqn:Hs; [|done].
    intros k row. unfold committed. cbn [daily_stats]. rewrite lookup_insert.
    destruct (decide ((u, handler_today clk) = k)); [|apply Hens].
    intros [= <-]. apply P_updated. by apply (Hens _ _ Hs).
Qed.

Lemma reachable_rows db :
  reachable db -> forall k row, daily_stats db !! k = Some row -> P row.
Proof.
  induction 1 as [|db r _ IH].
  - intros k row. cbn. by rewrite lookup_empty.
  - by apply step_rows.
Qed.
End row_invariant.

Lemma math_max0_cases x :
  (Qle_bool 0 x = true /\ math_max0 x = x)
  \/ (Qle_bool 0 x = false /\ math_max0 x = 0%Q).
Proof. unfold math_max0. destruct (Qle_bool 0 x); auto. Qed.

(** X1.  In every store reached from the empty database by the requests of
    [request] ([GET /api/me], and [POST /api/log] with a string [type] and
    [points] a finite number or [null]), the energy of every daily record is
    at least zero.  Nothing is stated for the stores reached through a
    [POST /api/log] whose [points] is a string or an infinity: the guard lets
    these through, and the energies the server then stores are outside the
    embedding. *)
Theorem reachable_energy_nonneg db k row :
  reachable db ->
  daily_stats db !! k = Some row ->
  (0 <= energy row)%Q.
Proof.
  intros Hr. revert k row.
  apply (reachable_rows (fun row => (0 <= energy row)%Q)); [done|done| |done].
  intros stats q _. apply math_max0_nonneg.
Qed.

Lemma reachable_energy_nonneg_witness :
  reachable db_A
  /\ daily_stats db_A !! (7, "2024-05-02"%string) = Some (mkDaily 70 1 0)
  /\ (0 <= 70)%Q.
Proof.
  assert (reachable db_A) as Hr by (apply reach_step, reach_empty).
  split; [exact Hr|]. split; [reflexivity|].
  exact (reachable_energy_nonneg db_A (7, "2024-05-02"%string) (mkDaily 70 1 0)
           Hr eq_refl).
Defined.

(** X2.  In every store the server can reach, a daily record whose energy is
    at or above the goal of 65 has its battery: [battery_earned = 1]. *)
Theorem reachable_goal_has_battery db k row :
  reachable db ->
  daily_stats db !! k = Some row ->
  (65 <= energy row)%Q ->
  battery_earned row = 1.
Proof.
  intros Hr Hk Hge.
  assert ((battery_earned row = 0 \/ battery_earned row = 1)
          /\ (Qle_bool 65 (energy row) = true -> battery_earned row = 1))
    as [_ H].
  { clear Hge. revert k row Hk.
    apply (reachable_rows
             (fun row => (battery_earned row = 0 \/ battery_earned row = 1)
                         /\ (Qle_bool 65 (energy row) = true ->
                             battery_earned row = 1))); [| | |done].
    - split; [by left|]. intros H. discriminate H.
    - split; [by left|]. intros H. discriminate H.
    - intros stats q [H01 _]. unfold updated_row, BAT_GOAL. cbn [battery_earned energy].
      destruct (Qle_bool 65 (math_max0 (energy stats + q))) eqn:E; cbn [andb].
      + destruct H01 as [-> | ->]; cbn; auto.
      + split; [done|]. intros H. discriminate H. }
  apply H. by apply Qle_bool_iff.
Qed.

Lemma reachable_goal_has_battery_witness :
  reachable db_A
  /\ daily_stats db_A !! (7, "2024-05-02"%string) = Some (mkDaily 70 1 0)
  /\ (65 <= 70)%Q
  /\ battery_earned (mkDaily 70 1 0) = 1.
Proof.
  assert (reachable db_A) as Hr by (apply reach_step, reach_empty).
  assert (65 <= 70)%Q as Hge by (apply Qle_bool_iff; reflexivity).
  split; [exact Hr|]. split; [reflexivity|]. split; [exact Hge|].
  exact (reachable_goal_has_battery db_A (7, "2024-05-02"%string)
           (mkDaily 70 1 0) Hr eq_refl Hge).
Defined.

(** ** Records are never deleted and the log only grows *)

Lemma step_record_survives db r k row :
  daily_stats db !! k = Some row ->
  exists row',
    daily_stats (step db r) !! k = Some row'
    /\ bonus_applied row' = bonus_applied row
    /\ (battery_earned row' = battery_earned row
        \/ (battery_earned row = 0 /\ battery_earned row' = 1)).
Proof.
  intros Hk. destruct r as [clk u|clk u ty p].
  - rewrite step_GetMe. exists row. split; [|auto].
    by apply ensured_lookup_existing.
  - rewrite step_PostLog. destruct (String.eqb ty ""); [exists row; auto|].
    apply (ensured_lookup_existing clk u) in Hk.
    destruct p as [q|]; [|exists row; auto].
    destruct (daily_stats (ensured clk u db) !! (u, handler_today clk))
      as [stats|] eqn:Hs; [|exists row; auto].
    unfold committed. cbn [daily_stats].
    destruct (decide ((u, handler_today clk) = k)) as [E|E].
    + rewrite E in Hs |- *. rewrite lookup_insert_eq.
      assert (stats = row) as -> by congruence.
      eexists. split; [done|]. split; [done|]. apply updated_row_battery.
    + rewrite lookup_insert_ne by done. exists row. auto.
Qed.

(** X3.  A daily record, once it exists, is there after every later sequence
    of requests; its [bonus_applied] never changes, and its [battery_earned]
    either keeps its value or has gone from 0 to 1. *)
Theorem record_survives rs db k row :
  daily_stats db !! k = Some row ->
  exists row',
    daily_stats (run rs db) !! k = Some row'
    /\ bonus_applied row' = bonus_applied row
    /\ (battery_earned row' = battery_earned row
        \/ (battery_earned row = 0 /\ battery_earned row' = 1)).
Proof.
  revert db row. induction rs as [|r rs IH]; intros db row Hk.
  - exists row. auto.
  - cbn [run fold_left].
    destruct (step_record_survives db r k row Hk) as (row1 & H1 & Hb1 & He1).
    destruct (IH (step db r) row1 H1) as (row2 & H2 & Hb2 & He2).
    exists row2. split; [done|]. split; [congruence|].
    destruct He1 as [E1|[E1 E1']], He2 as [E2|[E2 E2']]; try (left; congruence).
    + right. split; congruence.
    + right. split; congruence.
Qed.

Lemma record_survives_witness :
  exists row',
    daily_stats (run [PostLog clk1 7 "nap" (Some (-100)%Q)] db_A)
      !! (7, "2024-05-02"%string) = Some row'
    /\ bonus_applied row' = 0.
Proof.
  destruct (record_survives [PostLog clk1 7 "nap" (Some (-100)%Q)] db_A
              (7, "2024-05-02"%string) (mkDaily 70 1 0) eq_refl)
    as (row' & Hk & Hb & _).
  exists row'. split; [exact Hk|exact Hb].
Defined.

Lemma ensured_log clk u db :
  activity_log (ensured clk u db)
  = activity_log db
    ++ (if grants_bonus clk u db then [bonus_entry u (ensure_today clk)] else []).
Proof.
  rewrite ensured_cases. unfold grants_bonus.
  destruct (daily_stats db !! (u, ensure_today clk)); [by rewrite app_nil_r|].
  destruct (bonus_eligible (ensure_yesterday clk) u db); cbn [activity_log];
    [done|by rewrite app_nil_r].
Qed.

Lemma step_log db r :
  exists added,
    activity_log (step db r) = activity_log db ++ added
    /\ (length added <= 2)%nat.
Proof.
  destruct r as [clk u|clk u ty p].
  - rewrite step_GetMe, ensured_log. eexists. split; [done|].
    destruct (grants_bonus clk u db); cbn; lia.
  - rewrite step_PostLog. destruct (String.eqb ty "").
    { exists []. by rewrite app_nil_r; cbn; auto with lia. }
    destruct p as [q|].
    + destruct (daily_stats (ensured clk u db) !! (u, handler_today clk));
        unfold committed, logged_only; cbn [activity_log];
        rewrite ensured_log, <- app_assoc; (eexists; split; [done|]);
        destruct (grants_bonus clk u db); cbn; lia.
    + rewrite ensured_log. eexists. split; [done|].
      destruct (grants_bonus clk u db); cbn; lia.
Qed.

(** X4.  The activity log is append-only: after any sequence of requests the
    old log is a prefix of the new one, and a request adds at most two
    entries (the bonus entry and its own). *)
Theorem log_append_only rs db :
  activity_log db `prefix_of` activity_log (run rs db)
  /\ (length (activity_log (run rs db))
      <= length (activity_log db) + 2 * length rs)%nat.
Proof.
  revert db. induction rs as [|r rs IH]; intros db.
  - cbn. split; [done|lia].
  - cbn [run fold_left]. destruct (IH (step db r)) as [[k Hk] Hlen].
    destruct (step_log db r) as (added & Ha & Hl).
    fold (run rs (step db r)). split.
    + exists (added ++ k). by rewrite Hk, Ha, <- app_assoc.
    + rewrite Ha, length_app in Hlen. cbn [length]. lia.
Qed.

(** ** Requests of one user leave the other users alone *)

Lemma user_points_app u l1 l2 :
  user_points u (l1 ++ l2) = user_points u l1 ++ user_points u l2.
Proof. unfold user_points. by rewrite filter_app, map_app. Qed.

Lemma user_points_other u u0 ty q d :
  u0 <> u -> user_points u [mkLog u0 ty q d] = [].
Proof.
  intros Hne. unfold user_points. by rewrite filter_cons_False.
Qed.


Lemma balance_insert_other u' u d r t l l' :
  u <> u' ->
  battery_balance u' (mkStore (<[(u, d) := r]> t) l)
  = battery_balance u' (mkStore t l').
Proof.
  intros Hne. rewrite (balance_insert _ _ _ _ _ l'). unfold contrib.
  destruct (t !! (u, d)); destruct (decide ((u, d).1 = u')); (done || lia).
Qed.

Lemma store_eta db : mkStore (daily_stats db) (activity_log db) = db.
Proof. by destruct db. Qed.

Lemma ensured_other clk u u' db :
  u <> u' ->
  (forall d, daily_stats (ensured clk u db) !! (u', d) = daily_stats db !! (u', d))
  /\ user_points u' (activity_log (ensured clk u db))
     = user_points u' (activity_log db)
  /\ (forall d, day_points u' d (activity_log (ensured clk u db))
                = day_points u' d (activity_log db))
  /\ battery_balance u' (ensured clk u db) = battery_balance u' db.
Proof.
  intros Hne.
  assert (forall d d' : date, (u, d) <> (u', d')) as Hk by (intros d d' [= ? _]; done).
  rewrite ensured_log. unfold bonus_entry.
  split; [|split; [|split]].
  - intros d. rewrite ensured_cases.
    destruct (daily_stats db !! (u, ensure_today clk)); [done|].
    destruct (bonus_eligible (ensure_yesterday clk) u db); cbn [daily_stats];
      by rewrite lookup_insert_ne by apply Hk.
  - destruct (grants_bonus clk u db); [|by rewrite app_nil_r].
    by rewrite user_points_app, user_points_other, app_nil_r.
  - intros d. destruct (grants_bonus clk u db); [|by rewrite app_nil_r].
    by rewrite day_points_app, day_points_other, app_nil_r by apply Hk.
  - rewrite ensured_cases.
    destruct (daily_stats db !! (u, ensure_today clk)); [done|].
    destruct (bonus_eligible (ensure_yesterday clk) u db);
      rewrite (balance_insert_other u' u _ _ _ _ (activity_log db) Hne);
      by rewrite store_eta.
Qed.

(** X5.  A request of one user changes nothing of another user: not their
    daily records, not their log entries (lifetime or per day), not their
    battery balance. *)
Theorem other_users_untouched r db u' :
  request_user r <> u' ->
  (forall d, daily_stats (step db r) !! (u', d) = daily_stats db !! (u', d))
  /\ user_points u' (activity_log (step db r)) = user_points u' (activity_log db)
  /\ (forall d, day_points u' d (activity_log (step db r))
                = day_points u' d (activity_log db))
  /\ battery_balance u' (step db r) = battery_balance u' db.
Proof.
  intros Hne. destruct r as [clk u|clk u ty p]; cbn [request_user] in Hne.
  - rewrite step_GetMe. by apply ensured_other.
  - rewrite step_PostLog. destruct (String.eqb ty ""); [done|].
    destruct (ensured_other clk u u' db Hne) as (Hd & Hu & Hp & Hb).
    destruct p as [q|]; [|done].
    assert (forall d d' : date, (u, d) <> (u', d')) as Hk by (intros d d' [= ? _]; done).
    destruct (daily_stats (ensured clk u db) !! (u, handler_today clk))
      as [stats|]; unfold committed, logged_only; cbn [daily_stats activity_log].
    + split; [|split; [|split]].
      * intros d. by rewrite lookup_insert_ne by apply Hk.
      * by rewrite user_points_app, user_points_other, app_nil_r.
      * intros d. by rewrite day_points_app, day_points_other, app_nil_r by apply Hk.
      * rewrite (balance_insert_other u' u _ _ _ _
                   (activity_log (ensured clk u db)) Hne).
        by rewrite store_eta.
    + split; [done|]. split; [|split].
      * by rewrite user_points_app, user_points_other, app_nil_r.
      * intros d. by rewrite day_points_app, day_points_other, app_nil_r by apply Hk.
      * done.
Qed.

Lemma other_users_untouched_witness :
  battery_balance 7 (step db_A (PostLog clk1 8 "read" (Some 70%Q)))
  = battery_balance 7 db_A.
Proof.
  apply (other_users_untouched (PostLog clk1 8 "read" (Some 70%Q)) db_A 7).
  discriminate.
Defined.

(** ** The clamped energy and the raw points *)

Lemma Qsum_snoc l q : Qsum (l ++ [q]) = (Qsum l + q)%Q.
Proof. unfold Qsum. by rewrite fold_left_app. Qed.

Lemma math_max0_ge x : (x <= math_max0 x)%Q.
Proof.
  destruct (math_max0_cases x) as [[_ ->]|[H ->]]; [apply Qle_refl|].
  apply Qlt_le_weak, Qnot_le_lt. intros Hle.
  apply Qle_bool_iff in Hle. congruence.
Qed.

Lemma replay_ge_Qsum l : (Qsum l <= replay l)%Q.
Proof.
  induction l as [|q l IH] using rev_ind; [apply Qle_refl|].
  rewrite Qsum_snoc, replay_snoc. unfold clamp_add.
  eapply Qle_trans; [|apply math_max0_ge].
  apply Qplus_le_compat; [done|apply Qle_refl].
Qed.

Lemma replay_nonneg_Qsum l :
  Forall (fun p => (0 <= p)%Q) l -> (replay l == Qsum l)%Q.
Proof.
  induction l as [|q l IH] using rev_ind; intros Hl; [reflexivity|].
  apply Forall_app in Hl as [Hl Hq]. inversion Hq as [|? ? Hq0 _]; subst.
  rewrite Qsum_snoc, replay_snoc. unfold clamp_add.
  destruct (math_max0_cases (replay l + q)) as [[_ ->]|[H _]].
  - by rewrite (IH Hl).
  - exfalso. assert (0 <= replay l + q)%Q as Hle.
    { rewrite (IH Hl).
      replace 0%Q with (0 + 0)%Q by reflexivity.
      apply Qplus_le_compat; [|done].
      clear IH H. induction l as [|x l IHl] using rev_ind; [apply Qle_refl|].
      apply Forall_app in Hl as [Hl Hx]. inversion Hx as [|? ? Hx0 _]; subst.
      rewrite Qsum_snoc. replace 0%Q with (0 + 0)%Q by reflexivity.
      apply Qplus_le_compat; [by apply IHl|done]. }
    apply Qle_bool_iff in Hle. congruence.
Qed.

(** X6.  In a store reached by the requests of [request] ([GET /api/me], and
    [POST /api/log] with a string [type] and [points] a finite number or
    [null]), none of them handled across midnight, the energy of a day is at
    least the plain sum of the points logged for that user and day (the clamp
    only ever raises it), and when none of these points is negative the two
    are equal.  Nothing is stated for the stores reached through a
    [POST /api/log] whose [points] is a string or an infinity. *)
Theorem day_energy_bounds db u d row :
  day_reachable db ->
  daily_stats db !! (u, d) = Some row ->
  (Qsum (day_points u d (activity_log db)) <= energy row)%Q
  /\ (Forall (fun p => (0 <= p)%Q) (day_points u d (activity_log db)) ->
      (energy row == Qsum (day_points u d (activity_log db)))%Q).
Proof.
  intros Hr Hk. pose proof (day_reachable_consistent db Hr u d) as Hc.
  unfold ledger_consistent in Hc. rewrite Hk in Hc. rewrite Hc.
  split; [apply replay_ge_Qsum|apply replay_nonneg_Qsum].
Qed.

Lemma day_energy_bounds_witness :
  day_reachable db_A
  /\ (Qsum (day_points 7 "2024-05-02" (activity_log db_A)) <= 70)%Q.
Proof.
  assert (day_reachable db_A) as Hr
    by (apply day_reach_log; [apply day_reach_empty|reflexivity]).
  split; [exact Hr|].
  exact (proj1 (day_energy_bounds db_A 7 "2024-05-02" (mkDaily 70 1 0) Hr eq_refl)).
Defined.

(** ** GET /api/me *)

Lemma api_me_reply clk u db row :
  daily_stats (ensured clk u db) !! (u, ensure_today clk) = Some row ->
  api_me clk u db
  = (if sum_overflows (user_points u (activity_log (ensured clk u db)))
     then Status500 SqliteIntegerOverflow
     else Status200
            (mkMe (Qsum (user_points u (activity_log (ensured clk u db))))
                  (energy row) (battery_balance u (ensured clk u db))
                  (truthyZ (battery_earned row)) (truthyZ (bonus_applied row))),
     ensured clk u db).
Proof.
  intros Hk. unfold api_me, api_me_body, bind.
  destruct (ensureToday_returns (ensure_today clk) (ensure_yesterday clk) u db)
    as (row' & E & Hk').
  fold (ensured clk u db) in E, Hk'. rewrite E.
  unfold getTotalEnergy, sql_sum.
  destruct (sum_overflows (user_points u (activity_log (ensured clk u db))));
    [reflexivity|].
  cbn. assert (row' = row) as -> by congruence. reflexivity.
Qed.

Lemma ensured_existing clk u db row :
  daily_stats db !! (u, ensure_today clk) = Some row -> ensured clk u db = db.
Proof. intros Hk. rewrite ensured_cases. by rewrite Hk. Qed.

(** X7.  [GET /api/me] leaves the store as [ensureToday] leaves it.  It
    answers 500 exactly when [SUM(points)] of the user overflows (line 187),
    and otherwise 200 with the sum of the user's log points, today's energy,
    the battery balance and the two flags of today's record, all read from
    that store.  Asking again on the same day gives the same answer and
    changes nothing. *)
Theorem api_me_outcome clk u db :
  exists row,
    daily_stats (ensured clk u db) !! (u, ensure_today clk) = Some row
    /\ api_me clk u db
       = (if sum_overflows (user_points u (activity_log (ensured clk u db)))
          then Status500 SqliteIntegerOverflow
          else Status200
                 (mkMe (Qsum (user_points u (activity_log (ensured clk u db))))
                       (energy row) (battery_balance u (ensured clk u db))
                       (truthyZ (battery_earned row))
                       (truthyZ (bonus_applied row))),
          ensured clk u db)
    /\ forall h y',
         api_me (mkClock h (ensure_today clk) y') u (api_me clk u db).2
         = api_me clk u db.
Proof.
  destruct (ensureToday_returns (ensure_today clk) (ensure_yesterday clk) u db)
    as (row & _ & Hk).
  fold (ensured clk u db) in Hk. exists row. split; [done|].
  rewrite (api_me_reply clk u db row Hk). split; [done|].
  intros h y'. cbn [snd].
  assert (ensured (mkClock h (ensure_today clk) y') u (ensured clk u db)
          = ensured clk u db) as Hid.
  { by apply (ensured_existing _ _ _ row). }
  rewrite (api_me_reply _ u (ensured clk u db) row); rewrite Hid; done.
Qed.

(** Two accepted posts of 2^62 points: the second is answered 500 "integer
    overflow" with its log entry and row update in, and [GET /api/me] is
    answered 500 from then on. *)
Example overflow_after_two_posts :
  let big := inject_Z (2 ^ 62) in
  exists db1 db2,
    api_log clk1 7 (JStr "read") (JNum big) empty_db
    = Some (Status200 (mkLogBody 1 big big 1 true true), db1)
    /\ api_log clk1 7 (JStr "read") (JNum big) db1
       = Some (Status500 SqliteIntegerOverflow, db2)
    /\ daily_stats db2 !! (7, "2024-05-02"%string)
       = Some (mkDaily (inject_Z (2 ^ 63)) 1 0)
    /\ length (activity_log db2) = 2%nat
    /\ api_me clk1 7 db2 = (Status500 SqliteIntegerOverflow, db2).
Proof.
  eexists _, _. split; [vm_compute; reflexivity|].
  split; [vm_compute; reflexivity|].
  split; [vm_compute; reflexivity|]. split; vm_compute; reflexivity.
Qed.



(** ** What one activity adds up to *)

Lemma ensured_balance_eq clk u db :
  battery_balance u (ensured clk u db)
  = battery_balance u db - (if grants_bonus clk u db then 1 else 0).
Proof.
  rewrite ensured_cases. unfold grants_bonus.
  destruct (daily_stats db !! (u, ensure_today clk)) eqn:Hk; [lia|].
  destruct (bonus_eligible (ensure_yesterday clk) u db);
    rewrite (balance_insert _ _ _ _ _ (activity_log db)), Hk, store_eta;
    unfold contrib, bonus_row, plain_row;
    cbn [fst battery_earned bonus_applied];
    rewrite !decide_True by done; lia.
Qed.



(** X10.  A [POST /api/log] with numeric points leaves the battery balance at
    the balance before the request, minus one when this request made
    [ensureToday] grant the bonus, plus one when the new energy is at least 65
    and the battery was not yet earned; when it is answered 200 the body
    reports that balance, and [newBattery] says whether the one was added. *)
Theorem battery_accounting clk u ty q db :
  ty <> ""%string ->
  handler_today clk = ensure_today clk ->
  exists stats r db2,
    daily_stats (ensured clk u db) !! (u, handler_today clk) = Some stats
    /\ api_log clk u (JStr ty) (JNum q) db = Some (r, db2)
    /\ battery_balance u db2
       = battery_balance u db
         - (if grants_bonus clk u db then 1 else 0)
         + (if Qle_bool 65 (Qmax 0 (energy stats + q))
               && negb (truthyZ (battery_earned stats))
            then 1 else 0)
    /\ (forall body, r = Status200 body ->
          lb_batteries body = battery_balance u db2
          /\ lb_newBattery body
             = Qle_bool 65 (Qmax 0 (energy stats + q))
               && negb (truthyZ (battery_earned stats))).
Proof.
  intros Hty Hclk.
  destruct (api_log_same_day clk u ty q db Hty Hclk) as (stats & Hk & E).
  exists stats. rewrite <- !Qle_bool_math_max0.
  rewrite E, to_reply_answered. eexists _, _.
  split; [done|]. split; [reflexivity|].
  assert (battery_earned (updated_row stats q)
          = if Qle_bool 65 (math_max0 (energy stats + q))
               && negb (truthyZ (battery_earned stats))
            then 1 else battery_earned stats) as Hb by reflexivity.
  split.
  - unfold committed.
    rewrite (balance_insert _ _ _ _ _ (activity_log (ensured clk u db))), Hk,
      store_eta, ensured_balance_eq.
    unfold contrib. cbn [fst]. rewrite !decide_True by done.
    change (bonus_applied (updated_row stats q)) with (bonus_applied stats).
    rewrite Hb.
    destruct (Qle_bool 65 (math_max0 (energy stats + q))); cbn [andb]; [|lia].
    unfold truthyZ. destruct (battery_earned stats =? 0) eqn:E0; cbn [negb]; [|lia].
    apply Z.eqb_eq in E0. lia.
  - intros body. destruct (sum_overflows _); [discriminate|]. intros [= <-].
    unfold answer. cbn [lb_batteries lb_newBattery]. split; [done|].
    rewrite Hb.
    destruct (Qle_bool 65 (math_max0 (energy stats + q))); cbn [andb].
    + by destruct (truthyZ (battery_earned stats)).
    + by destruct (truthyZ (battery_earned stats)).
Qed.

Lemma battery_accounting_witness :
  exists r db2,
    api_log clk1 7 (JStr "read") (JNum 70) db_yesterday = Some (r, db2)
    /\ battery_balance 7 db2 = 1 - 1 + 1.
Proof.
  destruct (battery_accounting clk1 7 "read" 70%Q db_yesterday)
    as (stats & r & db2 & Hk & E & Hb & _).
  - discriminate.
  - reflexivity.
  - exists r, db2. split; [exact E|]. rewrite Hb.
    vm_compute in Hk. injection Hk as <-. reflexivity.
Defined.

(** ** The bonus and its log entry *)

Lemma step_bonus_entry db r :
  (forall u d row, daily_stats db !! (u, d) = Some row ->
     truthyZ (bonus_applied row) = true -> bonus_entry u d ∈ activity_log db) ->
  forall u d row, daily_stats (step db r) !! (u, d) = Some row ->
    truthyZ (bonus_applied row) = true ->
    bonus_entry u d ∈ activity_log (step db r).
Proof.
  intros Inv.
  assert (forall clk u0 u d row,
            daily_stats (ensured clk u0 db) !! (u, d) = Some row ->
            truthyZ (bonus_applied row) = true ->
            bonus_entry u d ∈ activity_log (ensured clk u0 db)) as Hens.
  { intros clk u0 u d row. rewrite ensured_cases.
    destruct (daily_stats db !! (u0, ensure_today clk)); [apply Inv|].
    destruct (bonus_eligible (ensure_yesterday clk) u0 db);
      cbn [daily_stats activity_log]; rewrite lookup_insert;
      destruct (decide ((u0, ensure_today clk) = (u, d))) as [E|E].
    - injection E as <- <-. intros _ _. apply elem_of_app. right. by left.
    - intros Hk Hb. apply elem_of_app. left. by apply (Inv _ _ row).
    - intros [= <-]. discriminate.
    - apply Inv. }
  destruct r as [clk u0|clk u0 ty p].
  - rewrite step_GetMe. apply Hens.
  - rewrite step_PostLog. destruct (String.eqb ty ""); [done|].
    destruct p as [q|]; [|apply Hens].
    destruct (daily_stats (ensured clk u0 db) !! (u0, handler_today clk))
      as [stats|] eqn:Hs; intros u d row;
      unfold committed, logged_only; cbn [daily_stats activity_log].
    + rewrite lookup_insert.
      destruct (decide ((u0, handler_today clk) = (u, d))) as [E|E].
      * injection E as <- <-. intros [= <-] Hb.
        apply elem_of_app. left. by apply (Hens clk u0 _ _ stats).
      * intros Hk Hb. apply elem_of_app. left. by apply (Hens clk u0 _ _ row).
    + intros Hk Hb. apply elem_of_app. left. by apply (Hens clk u0 _ _ row).
Qed.

(** X11.  In every store the server can reach, a daily record with
    [bonus_applied] set has its ["Battery Bonus"] entry of 20 points, for that
    user and date, in the activity log. *)
Theorem bonus_has_entry db u d row :
  reachable db ->
  daily_stats db !! (u, d) = Some row ->
  truthyZ (bonus_applied row) = true ->
  mkLog u "Battery Bonus" 20 d ∈ activity_log db.
Proof.
  intros Hr. revert u d row. induction Hr as [|db r _ IH].
  - intros u d row. cbn. by rewrite lookup_empty.
  - by apply step_bonus_entry.
Qed.

(** The store after user 7, with yesterday's battery, opens 2024-05-02. *)
Lemma bonus_has_entry_witness :
  reachable (step db_yesterday (GetMe clk1 7))
  /\ mkLog 7 "Battery Bonus" 20 "2024-05-02"
     ∈ activity_log (step db_yesterday (GetMe clk1 7)).
Proof.
  assert (reachable (step db_yesterday (GetMe clk1 7))) as Hr
    by (do 2 apply reach_step; apply reach_empty).
  split; [exact Hr|].
  exact (bonus_has_entry _ 7 "2024-05-02" (mkDaily 20 0 1) Hr eq_refl eq_refl).
Defined.

(** ** When POST /api/log answers 500 *)

(** X12.  With a non-empty type and numeric points, [POST /api/log] answers
    500 in two ways only.  Either the request is handled across midnight: the
    handler's date differs from the one [ensureToday] read and the user has no
    record for the handler's date; the error is the read of [stats.energy] on
    [undefined], and the store is left with the request's log entry appended
    and no row update.  Or [SUM(points)] of the user overflows at line 222:
    the error is "integer overflow", and both the log entry and the row update
    of the request are in. *)
Theorem api_log_500_causes clk u ty q db e db' :
  ty <> ""%string ->
  api_log clk u (JStr ty) (JNum q) db = Some (Status500 e, db') ->
  (e = TypeErrorUndefined
   /\ handler_today clk <> ensure_today clk
   /\ daily_stats db !! (u, handler_today clk) = None
   /\ daily_stats db' = daily_stats (ensured clk u db)
   /\ activity_log db'
      = activity_log (ensured clk u db) ++ [mkLog u ty q (handler_today clk)])
  \/ (e = SqliteIntegerOverflow
      /\ sum_overflows (user_points u (activity_log db')) = true
      /\ exists stats,
           daily_stats (ensured clk u db) !! (u, handler_today clk) = Some stats
           /\ daily_stats db'
              = <[(u, handler_today clk) := updated_row stats q]>
                  (daily_stats (ensured clk u db))
           /\ activity_log db'
              = activity_log (ensured clk u db)
                ++ [mkLog u ty q (handler_today clk)]).
Proof.
  intros Hty. rewrite (api_log_number _ _ _ _ _ Hty), api_log_body_number.
  fold (ensured clk u db).
  destruct (daily_stats (ensured clk u db) !! (u, handler_today clk))
    as [stats|] eqn:Hs; cbn [fst snd].
  - rewrite to_reply_answered.
    destruct (sum_overflows _) eqn:Ho; intros [= <- <-].
    right. split; [done|]. split; [done|]. by exists stats.
  - cbn [to_reply]. intros [= <- <-]. left.
    split; [done|]. split; [|split; [|done]].
    + intros Heq.
      destruct (ensureToday_returns (ensure_today clk) (ensure_yesterday clk) u db)
        as (row & _ & Hk).
      fold (ensured clk u db) in Hk. rewrite <- Heq in Hk. congruence.
    + destruct (daily_stats db !! (u, handler_today clk)) as [row|] eqn:Hk; [|done].
      apply (ensured_lookup_existing clk u) in Hk. congruence.
Qed.

Lemma api_log_500_causes_witness :
  (exists db',
     api_log clk_midnight 7 (JStr "read") (JNum 5) empty_db
     = Some (Status500 TypeErrorUndefined, db')
     /\ handler_today clk_midnight <> ensure_today clk_midnight
     /\ length (activity_log db') = 1%nat)
  /\ (exists db',
        api_log clk1 7 (JStr "read") (JNum (inject_Z (2 ^ 62)))
          (step empty_db (PostLog clk1 7 "read" (Some (inject_Z (2 ^ 62)))))
        = Some (Status500 SqliteIntegerOverflow, db')
        /\ sum_overflows (user_points 7 (activity_log db')) = true
        /\ length (activity_log db') = 2%nat).
Proof.
  split.
  - assert (exists db', api_log clk_midnight 7 (JStr "read") (JNum 5) empty_db
                        = Some (Status500 TypeErrorUndefined, db')) as [db' E]
      by (eexists; vm_compute; reflexivity).
    exists db'. split; [exact E|].
    destruct (api_log_500_causes clk_midnight 7 "read" 5%Q empty_db
                TypeErrorUndefined db') as [(_ & Hne & _ & _ & Hl)|(He & _)];
      [discriminate|exact E| |discriminate He].
    split; [exact Hne|]. rewrite Hl. vm_compute. reflexivity.
  - assert (exists db',
              api_log clk1 7 (JStr "read") (JNum (inject_Z (2 ^ 62)))
                (step empty_db (PostLog clk1 7 "read" (Some (inject_Z (2 ^ 62)))))
              = Some (Status500 SqliteIntegerOverflow, db')) as [db' E]
      by (eexists; vm_compute; reflexivity).
    exists db'. split; [exact E|].
    destruct (api_log_500_causes clk1 7 "read" (inject_Z (2 ^ 62))
                (step empty_db (PostLog clk1 7 "read" (Some (inject_Z (2 ^ 62)))))
                SqliteIntegerOverflow db')
      as [(He & _)|(_ & Hs & stats & _ & _ & Hl)];
      [discriminate|exact E|discriminate He|].
    split; [exact Hs|]. rewrite Hl. vm_compute. reflexivity.
Defined.

(** ** GET /api/history *)

Lemma numbered_from_app n l1 l2 :
  numbered_from n (l1 ++ l2)
  = numbered_from n l1 ++ numbered_from (n + Z.of_nat (length l1)) l2.
Proof.
  revert n. induction l1 as [|r l1 IH]; intros n.
  - cbn. by rewrite Z.add_0_r.
  - cbn [app numbered_from length]. rewrite IH. do 3 f_equal. lia.
Qed.

Lemma numbered_from_filter u d n l :
  map snd (filter (fun ir : Z * log_row =>
                     log_user ir.2 = u /\ log_date ir.2 = d)
                  (numbered_from n l))
  = filter (fun r => log_user r = u /\ log_date r = d) l.
Proof.
  revert n. induction l as [|r l IH]; intros n; [done|].
  cbn [numbered_from]. rewrite !filter_cons. cbn [snd].
  destruct (decide (log_user r = u /\ log_date r = d)); cbn [map snd];
    by rewrite IH.
Qed.

Lemma numbered_from_lookup n l i r :
  (i, r) ∈ numbered_from n l ->
  n <= i /\ l !! Z.to_nat (i - n) = Some r.
Proof.
  revert n. induction l as [|x l IH]; intros n; cbn [numbered_from].
  - intros H. by apply elem_of_nil in H.
  - intros H. apply elem_of_cons in H as [[= -> ->]|H].
    + split; [lia|]. by rewrite Z.sub_diag.
    + apply IH in H as [Hle Hl]. split; [lia|].
      replace (Z.to_nat (i - n)) with (S (Z.to_nat (i - (n + 1)))) by lia.
      done.
Qed.

Lemma api_history_reply today u db :
  api_history today u db
  = (Status200
       (reverse
          (map (fun ir : Z * log_row =>
                  mkHist ir.1 (log_type ir.2) (log_points ir.2))
               (filter (fun ir : Z * log_row =>
                          log_user ir.2 = u /\ log_date ir.2 = today)
                       (numbered (activity_log db))))), db).
Proof. reflexivity. Qed.

(** X13.  [GET /api/history] answers 200 and changes nothing.  Read from the
    oldest row to the newest, the points it lists are the points logged for
    that user and date in log order; every row it lists is the log row with
    that id, and belongs to that user and date. *)
Theorem history_lists_the_day today u db :
  exists hist,
    api_history today u db = (Status200 hist, db)
    /\ map h_points (reverse hist) = day_points u today (activity_log db)
    /\ forall h, h ∈ hist ->
         exists r,
           1 <= h_id h
           /\ activity_log db !! Z.to_nat (h_id h - 1) = Some r
           /\ log_user r = u /\ log_date r = today
           /\ log_type r = h_type h /\ log_points r = h_points h.
Proof.
  rewrite api_history_reply. eexists. split; [reflexivity|]. split.
  - rewrite reverse_involutive, map_map. cbn [h_points].
    unfold day_points, numbered.
    rewrite <- (numbered_from_filter u today 1 (activity_log db)).
    by rewrite map_map.
  - intros h Hh. apply elem_of_reverse, list_elem_of_fmap in Hh as ([i r] & -> & Hir).
    apply list_elem_of_filter in Hir as [[Hu Hd] Hir]. cbn [fst snd] in *.
    apply numbered_from_lookup in Hir as [Hle Hl].
    exists r. cbn [h_id h_type h_points]. done.
Qed.

(** X14.  In a store reached by the requests of [request] ([GET /api/me],
    and [POST /api/log] with a string [type] and [points] a finite number or
    [null]), none of them handled across midnight, today's energy is what the
    clamp rule gives when replayed from 0 over the history of today, read
    from its oldest row to its newest.  Nothing is stated for the stores
    reached through a [POST /api/log] whose [points] is a string or an
    infinity. *)
Theorem history_explains_energy today u db row :
  day_reachable db ->
  daily_stats db !! (u, today) = Some row ->
  exists hist,
    api_history today u db = (Status200 hist, db)
    /\ energy row = replay (map h_points (reverse hist)).
Proof.
  intros Hr Hk. rewrite api_history_reply. eexists. split; [reflexivity|].
  pose proof (day_reachable_consistent db Hr u today) as Hc.
  unfold ledger_consistent in Hc. rewrite Hk in Hc. rewrite Hc.
  rewrite reverse_involutive, map_map. cbn [h_points].
  unfold day_points, numbered.
  rewrite <- (numbered_from_filter u today 1 (activity_log db)).
  by rewrite map_map.
Qed.

Lemma history_explains_energy_witness :
  day_reachable db_A
  /\ exists hist,
       api_history "2024-05-02" 7 db_A = (Status200 hist, db_A)
       /\ 70%Q = replay (map h_points (reverse hist)).
Proof.
  assert (day_reachable db_A) as Hr
    by (apply day_reach_log; [apply day_reach_empty|reflexivity]).
  split; [exact Hr|].
  exact (history_explains_energy "2024-05-02" 7 db_A (mkDaily 70 1 0) Hr eq_refl).
Defined.

(** X15.  After a [POST /api/log] with numeric points whose clock reads fall
    on one day, the history of that day starts with the new entry, under the
    next id of the log and with the type and points as submitted, followed by
    the history as it was once [ensureToday] had run; when the request is
    answered 200, that id is the one the answer reports. *)
Theorem history_after_log clk u ty q db :
  ty <> ""%string ->
  handler_today clk = ensure_today clk ->
  exists r db2 hist0,
    api_log clk u (JStr ty) (JNum q) db = Some (r, db2)
    /\ api_history (handler_today clk) u (ensured clk u db)
       = (Status200 hist0, ensured clk u db)
    /\ api_history (handler_today clk) u db2
       = (Status200
            (mkHist (Z.of_nat (S (length (activity_log (ensured clk u db)))))
                    ty q :: hist0), db2)
    /\ (forall body, r = Status200 body ->
          lb_id body = Z.of_nat (S (length (activity_log (ensured clk u db))))).
Proof.
  intros Hty Hclk.
  destruct (api_log_same_day clk u ty q db Hty Hclk) as (stats & Hk & E).
  rewrite E, to_reply_answered.
  eexists _, _, _. split; [reflexivity|].
  rewrite !api_history_reply. split; [reflexivity|]. split.
  - unfold committed. cbn [activity_log]. f_equal. f_equal.
    unfold numbered. rewrite numbered_from_app. cbn [numbered_from].
    rewrite filter_app, filter_cons_True by done.
    rewrite filter_nil, map_app, reverse_app. cbn [map reverse fst snd].
    cbn [log_type log_points].
    replace (1 + Z.of_nat (length (activity_log (ensured clk u db))))
      with (Z.of_nat (S (length (activity_log (ensured clk u db))))) by lia.
    reflexivity.
  - intros body. destruct (sum_overflows _); [discriminate|]. by intros [= <-].
Qed.

Lemma history_after_log_witness :
  exists r db2 hist0,
    api_log clk1 7 (JStr "read") (JNum 70) db_yesterday = Some (r, db2)
    /\ api_history "2024-05-02" 7 db2
       = (Status200 (mkHist 3 "read" 70 :: hist0), db2).
Proof.
  destruct (history_after_log clk1 7 "read" 70%Q db_yesterday)
    as (r & db2 & hist0 & E & _ & H & _).
  - discriminate.
  - reflexivity.
  - exists r, db2, hist0. split; [exact E|exact H].
Defined.

(** * The auth routes *)

Example nocase_folds_ascii : nocase "Ada_LOVELACE-42" = "ada_lovelace-42"%string.
Proof. reflexivity. Qed.

Lemma nocase_eqb_refl a : nocase_eqb a a = true.
Proof. unfold nocase_eqb. apply String.eqb_refl. Qed.

Lemma nocase_eqb_eq a b : nocase_eqb a b = true <-> nocase a = nocase b.
Proof. unfold nocase_eqb. apply String.eqb_eq. Qed.

Lemma nocase_eqb_same x a b :
  nocase a = nocase b -> nocase_eqb x a = nocase_eqb x b.
Proof. unfold nocase_eqb. by intros ->. Qed.

Lemma nocase_empty a : nocase a = ""%string <-> a = ""%string.
Proof.
  destruct a as [|c a]; cbn [nocase]; [done|].
  destruct (Ascii.eqb c Ascii.zero); split; congruence.
Qed.

(** The comparison ignores ASCII case, and what follows a NUL byte. *)
Example nocase_stops_at_nul :
  nocase_eqb ("a" +:+ String Ascii.zero "b") ("A" +:+ String Ascii.zero "c") = true
  /\ nocase_eqb ("a" +:+ String Ascii.zero "b") ("a" +:+ String Ascii.zero "") = false.
Proof. split; reflexivity. Qed.

(** [.length] counts UTF-16 code units: twelve times U+00E9 (two bytes each)
    has length 12, and U+1F600 (four bytes) has length 2. *)
Example js_length_counts_utf16_units :
  js_length "éééééééééééé" = 12%nat
  /\ String.length "éééééééééééé" = 24%nat
  /\ js_length "😀" = 2%nat.
Proof. repeat split; reflexivity. Qed.

Lemma find_from_Some n name us i r :
  find_from n name us = Some (i, r) ->
  n <= i
  /\ us !! Z.to_nat (i - n) = Some r
  /\ nocase (u_username r) = nocase name.
Proof.
  revert n. induction us as [|x us IH]; intros n; cbn [find_from]; [done|].
  destruct (nocase_eqb (u_username x) name) eqn:E.
  - intros [= <- <-]. split; [lia|]. rewrite Z.sub_diag.
    split; [done|]. by apply nocase_eqb_eq.
  - intros H. apply IH in H as (Hle & Hl & Hn). split; [lia|]. split; [|done].
    replace (Z.to_nat (i - n)) with (S (Z.to_nat (i - (n + 1)))) by lia. done.
Qed.

Lemma find_from_None n name us :
  find_from n name us = None <->
  Forall (fun r => nocase (u_username r) <> nocase name) us.
Proof.
  revert n. induction us as [|x us IH]; intros n; cbn [find_from].
  - split; [constructor|done].
  - destruct (nocase_eqb (u_username x) name) eqn:E.
    + apply nocase_eqb_eq in E. split; [done|]. by inversion 1.
    + rewrite IH. split.
      * intros H. constructor; [|done]. intros Hn.
        apply nocase_eqb_eq in Hn. congruence.
      * by inversion 1.
Qed.

Lemma find_from_app n name us more :
  find_from n name (us ++ more)
  = match find_from n name us with
    | Some x => Some x
    | None => find_from (n + Z.of_nat (length us)) name more
    end.
Proof.
  revert n. induction us as [|x us IH]; intros n; cbn [app find_from length].
  - by rewrite Z.add_0_r.
  - destruct (nocase_eqb (u_username x) name); [done|].
    rewrite IH. destruct (find_from (n + 1) name us); [done|]. f_equal. lia.
Qed.

Lemma truthy_JStr_false s : truthy (JStr s) = false <-> s = ""%string.
Proof.
  cbn. rewrite negb_false_iff. apply String.eqb_eq.
Qed.

(** X16.  [POST /api/signup] with string fields succeeds exactly when both
    are non-empty, the username has at most 22 UTF-16 code units (JavaScript's
    [.length]), the password at least 3, and no registered username equals
    the new one under [NOCASE] (up to ASCII case, and up to what follows a
    NUL byte).
    It then appends the user with the given hash under the next id and opens
    the session for that id.  In every other case the users and the session
    are left as they were, and the answer is never 500: the [UNIQUE]
    constraint of [users.username] cannot fire. *)
Theorem signup_outcome hash name pw sess us :
  exists r sess' us',
    api_signup hash (JStr name) (JStr pw) sess us = Some (r, sess', us')
    /\ r <> Auth500
    /\ ((exists n, r = AuthOk n) <->
          name <> ""%string /\ pw <> ""%string
          /\ (js_length name <= 22)%nat /\ (3 <= js_length pw)%nat
          /\ Forall (fun row => nocase (u_username row) <> nocase name) us)
    /\ ((exists n, r = AuthOk n) ->
          r = AuthOk name
          /\ us' = us ++ [mkUser name hash]
          /\ sess' = Some (mkSession (Z.of_nat (S (length us))) name))
    /\ ((forall n, r <> AuthOk n) -> us' = us /\ sess' = sess).
Proof.
  unfold api_signup.
  destruct (truthy (JStr name)) eqn:Hn; cbn [negb orb].
  2:{ apply truthy_JStr_false in Hn. eexists _, _, _. split; [reflexivity|].
      split; [done|]. split; [|split; [|done]].
      - split; [by intros [? [=]]|]. by intros [? _].
      - by intros [? [=]]. }
  destruct (truthy (JStr pw)) eqn:Hp; cbn [negb].
  2:{ apply truthy_JStr_false in Hp. eexists _, _, _. split; [reflexivity|].
      split; [done|]. split; [|split; [|done]].
      - split; [by intros [? [=]]|]. by intros (_ & ? & _).
      - by intros [? [=]]. }
  apply truthy_JStr in Hn, Hp.
  destruct (22 <? js_length name)%nat eqn:Hl.
  { apply Nat.ltb_lt in Hl. eexists _, _, _. split; [reflexivity|].
    split; [done|]. split; [|split; [|done]].
    - split; [by intros [? [=]]|]. intros (_ & _ & ? & _). lia.
    - by intros [? [=]]. }
  apply Nat.ltb_ge in Hl.
  destruct (js_length pw <? 3)%nat eqn:Hpl.
  { apply Nat.ltb_lt in Hpl. eexists _, _, _. split; [reflexivity|].
    split; [done|]. split; [|split; [|done]].
    - split; [by intros [? [=]]|]. intros (_ & _ & _ & ? & _). lia.
    - by intros [? [=]]. }
  apply Nat.ltb_ge in Hpl. unfold createUser.
  destruct (findUser name us) as [x|] eqn:Hf.
  { eexists _, _, _. split; [reflexivity|].
    split; [done|]. split; [|split; [|done]].
    - split; [by intros [? [=]]|]. intros (_ & _ & _ & _ & H).
      apply (proj2 (find_from_None 1 name us)) in H.
      unfold findUser in Hf. congruence.
    - by intros [? [=]]. }
  eexists _, _, _. split; [reflexivity|]. split; [done|].
  split; [|split; [done|]].
  - split; [|by eexists]. intros _. repeat (split; [done|]).
    by apply (find_from_None 1).
  - intros H. by destruct (H name).
Qed.

Lemma unique_usernames_eq us x y :
  unique_usernames us -> x ∈ us -> y ∈ us ->
  nocase (u_username x) = nocase (u_username y) -> x = y.
Proof.
  unfold unique_usernames. induction us as [|z us IH]; cbn [map].
  - intros _ H. by apply elem_of_nil in H.
  - rewrite NoDup_cons. intros [Hz Hnd] Hx Hy Heq.
    apply elem_of_cons in Hx as [->|Hx], Hy as [->|Hy]; [done| | |by apply IH].
    + exfalso. apply Hz. rewrite Heq. apply list_elem_of_In.
      apply (in_map (fun r => nocase (u_username r)) us y).
      by apply list_elem_of_In.
    + exfalso. apply Hz. rewrite <- Heq. apply list_elem_of_In.
      apply (in_map (fun r => nocase (u_username r)) us x).
      by apply list_elem_of_In.
Qed.

(** X17.  With unique usernames, [POST /api/login] with non-empty string
    fields succeeds exactly when a registered username equals the given one
    under [NOCASE] (up to ASCII case, and up to what follows a NUL byte) and
    [compareSync] accepts the password against that
    user's stored hash.  The session then holds that user's id and the
    username as stored.  Otherwise the answer is 401 and the session stays as
    it was: a failed login does not log the client out. *)
Theorem login_outcome compareSync name pw sess us :
  name <> ""%string ->
  pw <> ""%string ->
  unique_usernames us ->
  exists r sess',
    api_login compareSync (JStr name) (JStr pw) sess us = Some (r, sess')
    /\ (r = Auth401 /\ sess' = sess
        \/ exists id user,
             r = AuthOk (u_username user)
             /\ sess' = Some (mkSession id (u_username user))
             /\ 1 <= id
             /\ us !! Z.to_nat (id - 1) = Some user)
    /\ ((exists n, r = AuthOk n) <->
          exists user, user ∈ us
                       /\ nocase (u_username user) = nocase name
                       /\ compareSync pw (u_password user) = true).
Proof.
  intros Hn Hp Hu. unfold api_login.
  apply truthy_JStr in Hn, Hp. rewrite Hn, Hp. cbn [negb orb].
  destruct (findUser name us) as [[id user]|] eqn:Hf.
  - unfold findUser in Hf. apply find_from_Some in Hf as (Hle & Hl & Hnc).
    assert (user ∈ us) as Hin by (by eapply list_elem_of_lookup_2).
    destruct (compareSync pw (u_password user)) eqn:Hc; cbn [negb].
    + eexists _, _. split; [reflexivity|]. split.
      * right. by exists id, user.
      * split; [|by eexists]. intros _. by exists user.
    + eexists _, _. split; [reflexivity|]. split; [by left|].
      split; [by intros [? [=]]|]. intros (user' & Hin' & Hnc' & Hc').
      assert (user' = user) as ->
        by (apply (unique_usernames_eq us); [done..|congruence]).
      congruence.
  - eexists _, _. split; [reflexivity|]. split; [by left|].
    split; [by intros [? [=]]|]. intros (user & Hin & Hnc & _).
    apply (find_from_None 1) in Hf. rewrite Forall_forall in Hf.
    by destruct (Hf user Hin).
Qed.

Lemma login_outcome_witness :
  unique_usernames [mkUser "Ada" "secret"]
  /\ exists r sess',
       api_login String.eqb (JStr "ada") (JStr "secret") None [mkUser "Ada" "secret"]
       = Some (r, sess')
       /\ exists n, r = AuthOk n.
Proof.
  assert (unique_usernames [mkUser "Ada" "secret"]) as Hu.
  { unfold unique_usernames. cbn. apply NoDup_singleton. }
  split; [exact Hu|].
  destruct (login_outcome String.eqb "ada" "secret" None [mkUser "Ada" "secret"])
    as (r & sess' & E & _ & Hok); [discriminate|discriminate|exact Hu|].
  exists r, sess'. split; [exact E|]. apply Hok.
  exists (mkUser "Ada" "secret"). split; [by left|]. split; reflexivity.
Defined.

(** ** Invariants of the server *)

Lemma api_signup_cases hash name pw sess us :
  exists r sess' us',
    api_signup hash (JStr name) (JStr pw) sess us = Some (r, sess', us')
    /\ (us' = us /\ sess' = sess /\ (forall n, r <> AuthOk n)
        \/ findUser name us = None
           /\ name <> ""%string /\ (3 <= js_length pw)%nat
           /\ r = AuthOk name
           /\ us' = us ++ [mkUser name hash]
           /\ sess' = Some (mkSession (Z.of_nat (S (length us))) name)).
Proof.
  unfold api_signup.
  destruct (truthy (JStr name)) eqn:Hn; cbn [negb orb];
    [|eexists _, _, _; split; [reflexivity|left; done]].
  destruct (truthy (JStr pw)) eqn:Hp; cbn [negb];
    [|eexists _, _, _; split; [reflexivity|left; done]].
  destruct (22 <? js_length name)%nat;
    [eexists _, _, _; split; [reflexivity|left; done]|].
  destruct (js_length pw <? 3)%nat eqn:Hpl;
    [eexists _, _, _; split; [reflexivity|left; done]|].
  apply Nat.ltb_ge in Hpl. apply truthy_JStr in Hn. unfold createUser.
  destruct (findUser name us) eqn:Hf;
    eexists _, _, _; (split; [reflexivity|]); [left; done|right; done].
Qed.

Lemma api_login_cases compareSync name pw sess us :
  exists r sess',
    api_login compareSync (JStr name) (JStr pw) sess us = Some (r, sess')
    /\ (sess' = sess
        \/ exists id user,
             sess' = Some (mkSession id (u_username user))
             /\ 1 <= id /\ us !! Z.to_nat (id - 1) = Some user).
Proof.
  unfold api_login.
  destruct (negb (truthy (JStr name)) || negb (truthy (JStr pw)));
    [eexists _, _; split; [reflexivity|by left]|].
  destruct (findUser name us) as [[id user]|] eqn:Hf;
    [|eexists _, _; split; [reflexivity|by left]].
  apply find_from_Some in Hf as (Hle & Hl & _).
  destruct (compareSync pw (u_password user)); cbn [negb];
    eexists _, _; (split; [reflexivity|]); [right; by exists id, user|by left].
Qed.

Lemma unique_usernames_snoc us name hash :
  unique_usernames us ->
  findUser name us = None ->
  unique_usernames (us ++ [mkUser name hash]).
Proof.
  unfold unique_usernames, findUser. intros Hu Hf.
  apply find_from_None in Hf. rewrite map_app. cbn [map u_username].
  apply NoDup_app. split; [done|]. split; [|apply NoDup_singleton].
  intros x Hx Hin. apply list_elem_of_singleton in Hin as ->.
  apply list_elem_of_In, in_map_iff in Hx as (r & Hr & Hin).
  rewrite Forall_forall in Hf. apply (Hf r); [by apply list_elem_of_In|done].
Qed.

Lemma serve_users compareSync sv rq :
  (exists more, sv_users (serve compareSync sv rq) = sv_users sv ++ more)
  /\ (unique_usernames (sv_users sv) ->
      unique_usernames (sv_users (serve compareSync sv rq))).
Proof.
  destruct rq as [c hash name pw|c name pw|c|c clk|c clk ty p|c today|today|c];
    cbn [serve].
  - destruct (api_signup_cases hash name pw (sv_sessions sv !! c) (sv_users sv))
      as (r & s' & us' & -> & [(-> & _)|(Hf & _ & _ & _ & -> & _)]);
      cbn [sv_users].
    + split; [exists []; by rewrite app_nil_r|done].
    + split; [by eexists|]. intros Hu. by apply unique_usernames_snoc.
  - destruct (api_login_cases compareSync name pw (sv_sessions sv !! c) (sv_users sv))
      as (r & s' & -> & _). cbn [sv_users].
    split; [exists []; by rewrite app_nil_r|done].
  - split; [exists []; by rewrite app_nil_r|done].
  - destruct (requireAuth (sv_sessions sv !! c));
      (split; [exists []; by rewrite app_nil_r|done]).
  - destruct (requireAuth (sv_sessions sv !! c));
      (split; [exists []; by rewrite app_nil_r|done]).
  - split; [exists []; by rewrite app_nil_r|done].
  - split; [exists []; by rewrite app_nil_r|done].
  - split; [exists []; by rewrite app_nil_r|done].
Qed.

(** X18.  On every server reached from the empty one, no two registered
    usernames are equal under [NOCASE] (up to ASCII case, and up to what
    follows a NUL byte). *)
Theorem served_unique_usernames compareSync sv :
  served compareSync sv -> unique_usernames (sv_users sv).
Proof.
  induction 1 as [|sv rq _ IH].
  - unfold unique_usernames. cbn. apply NoDup_nil_2.
  - by apply serve_users.
Qed.

Lemma served_unique_usernames_witness :
  served String.eqb
    (serve String.eqb empty_server (Signup 0 "secret" "Ada" "secret"))
  /\ unique_usernames
       (sv_users (serve String.eqb empty_server (Signup 0 "secret" "Ada" "secret"))).
Proof.
  assert (served String.eqb
            (serve String.eqb empty_server (Signup 0 "secret" "Ada" "secret")))
    as Hs by (apply served_step, served_empty).
  split; [exact Hs|]. exact (served_unique_usernames String.eqb _ Hs).
Defined.

Lemma step_lookup_other r db u' d :
  request_user r <> u' ->
  daily_stats (step db r) !! (u', d) = daily_stats db !! (u', d).
Proof.
  intros Hne. destruct r as [clk u|clk u ty p]; cbn [request_user] in Hne.
  - rewrite step_GetMe. by apply ensured_other.
  - rewrite step_PostLog. destruct (String.eqb ty ""); [done|].
    destruct (ensured_other clk u u' db Hne) as (Hd & _).
    destruct p as [q|]; [|done].
    destruct (daily_stats (ensured clk u db) !! (u, handler_today clk));
      unfold committed, logged_only; cbn [daily_stats]; [|done].
    rewrite lookup_insert_ne; [done|]. by intros [= ? _].
Qed.

Lemma step_log_users r db e :
  e ∈ activity_log (step db r) ->
  e ∈ activity_log db \/ log_user e = request_user r.
Proof.
  assert (forall clk u, e ∈ activity_log (ensured clk u db) ->
                        e ∈ activity_log db \/ log_user e = u) as Hens.
  { intros clk u. rewrite ensured_log. rewrite elem_of_app.
    intros [H|H]; [by left|right].
    destruct (grants_bonus clk u db); [|by apply elem_of_nil in H].
    by apply list_elem_of_singleton in H as ->. }
  destruct r as [clk u|clk u ty p]; cbn [request_user].
  - rewrite step_GetMe. apply Hens.
  - rewrite step_PostLog. destruct (String.eqb ty ""); [by left|].
    destruct p as [q|]; [|apply Hens].
    destruct (daily_stats (ensured clk u db) !! (u, handler_today clk));
      unfold committed, logged_only; cbn [activity_log];
      rewrite elem_of_app; (intros [H|H]; [by apply (Hens clk)|right]);
      by apply list_elem_of_singleton in H as ->.
Qed.

Lemma registered_app us more id : registered us id -> registered (us ++ more) id.
Proof. unfold registered. rewrite length_app. lia. Qed.

Lemma session_ok_app us more s : session_ok us s -> session_ok (us ++ more) s.
Proof.
  intros [Hr (row & Hl & Hn)]. split; [by apply registered_app|].
  exists row. split; [|done]. by apply lookup_app_l_Some.
Qed.

Lemma db_users_ok_app us more db : db_users_ok us db -> db_users_ok (us ++ more) db.
Proof.
  intros [Hd Hl]. split.
  - intros u d row Hk. apply registered_app. by apply (Hd u d row).
  - intros e He. apply registered_app. by apply Hl.
Qed.

Lemma set_session_lookup c s m c' :
  set_session c s m !! c' = if decide (c = c') then s else m !! c'.
Proof.
  unfold set_session. destruct s as [s|].
  - by rewrite lookup_insert.
  - by rewrite lookup_delete.
Qed.

Lemma lookup_registered us id (row : user_row) :
  1 <= id -> us !! Z.to_nat (id - 1) = Some row -> registered us id.
Proof.
  intros Hle Hl. apply lookup_lt_Some in Hl. unfold registered. lia.
Qed.

Lemma step_db_users_ok us db r :
  registered us (request_user r) ->
  db_users_ok us db -> db_users_ok us (step db r).
Proof.
  intros Hr [Hd Hl]. split.
  - intros u d row Hk. destruct (decide (request_user r = u)) as [<-|Hne]; [done|].
    rewrite (step_lookup_other r db u d Hne) in Hk. by apply (Hd u d row).
  - intros e He. apply step_log_users in He as [He| ->]; [by apply Hl|done].
Qed.

Lemma requireAuth_Some sess uid :
  requireAuth sess = Some uid ->
  exists s, sess = Some s /\ s_userId s = uid /\ uid <> 0.
Proof.
  unfold requireAuth. destruct sess as [s|]; [|done].
  unfold truthyZ. destruct (s_userId s =? 0) eqn:E; cbn [negb]; [done|].
  intros [= <-]. apply Z.eqb_neq in E. by exists s.
Qed.

Lemma served_references_users_aux compareSync sv :
  served compareSync sv ->
  (forall c s, sv_sessions sv !! c = Some s -> session_ok (sv_users sv) s)
  /\ db_users_ok (sv_users sv) (sv_db sv).
Proof.
  induction 1 as [|sv rq _ [IHs IHd]].
  - split.
    + intros c s. cbn. by rewrite lookup_empty.
    + split.
      * intros u d row. cbn. by rewrite lookup_empty.
      * intros e He. by apply elem_of_nil in He.
  - destruct rq as [c hash name pw|c name pw|c|c clk|c clk ty p|c today|today|c];
      cbn [serve].
    + destruct (api_signup_cases hash name pw (sv_sessions sv !! c) (sv_users sv))
        as (r & s' & us' & -> & [(-> & -> & _)|(Hf & _ & _ & _ & -> & ->)]);
        cbn [sv_users sv_db sv_sessions].
      * split; [|done]. intros c' s. rewrite set_session_lookup.
        destruct (decide (c = c')) as [<-|]; apply IHs.
      * split; [|by apply db_users_ok_app].
        intros c' s. rewrite set_session_lookup.
        destruct (decide (c = c')) as [<-|].
        -- intros [= <-]. split.
           ++ unfold registered. rewrite length_app. cbn [length s_userId]. lia.
           ++ exists (mkUser name hash). cbn [s_userId s_username].
              split; [|done].
              assert (Z.to_nat (Z.of_nat (S (length (sv_users sv))) - 1)
                      = length (sv_users sv)) as -> by lia.
              rewrite lookup_app_r by done. by rewrite Nat.sub_diag.
        -- intros Hs. apply session_ok_app. by apply (IHs c').
    + destruct (api_login_cases compareSync name pw (sv_sessions sv !! c)
                  (sv_users sv)) as (r & s' & -> & Hs').
      cbn [sv_users sv_db sv_sessions]. split; [|done].
      intros c' s. rewrite set_session_lookup.
      destruct (decide (c = c')) as [<-|]; [|apply IHs].
      destruct Hs' as [->|(id & user & -> & Hle & Hl)]; [apply IHs|].
      intros [= <-]. cbn [s_userId s_username]. split.
      * by apply (lookup_registered _ _ user).
      * by exists user.
    + cbn [sv_users sv_db sv_sessions api_logout set_session]. split; [|done].
      intros c' s. rewrite lookup_delete.
      destruct (decide (c = c')); [done|apply IHs].
    + destruct (requireAuth (sv_sessions sv !! c)) as [uid|] eqn:Ha; [|done].
      apply requireAuth_Some in Ha as (s & Hs & <- & _).
      cbn [sv_users sv_db sv_sessions]. split; [done|].
      apply step_db_users_ok; [|done]. by apply (IHs c s).
    + destruct (requireAuth (sv_sessions sv !! c)) as [uid|] eqn:Ha; [|done].
      apply requireAuth_Some in Ha as (s & Hs & <- & _).
      cbn [sv_users sv_db sv_sessions]. split; [done|].
      apply step_db_users_ok; [|done]. by apply (IHs c s).
    + done.
    + done.
    + cbn [sv_users sv_db sv_sessions]. split; [|done].
      intros c' s. rewrite lookup_delete.
      destruct (decide (c = c')); [done|apply IHs].
Qed.

(** X19.  On every server reached from the empty one, every session names a
    registered user under the username stored for that user, and every daily
    record and every log entry belongs to a registered user: the foreign keys
    of [daily_stats] and [activity_log] are never violated. *)
Theorem served_references_users compareSync sv :
  served compareSync sv ->
  (forall c s, sv_sessions sv !! c = Some s -> session_ok (sv_users sv) s)
  /\ db_users_ok (sv_users sv) (sv_db sv).
Proof.
  apply served_references_users_aux.
Qed.

Lemma served_references_users_witness :
  served String.eqb
    (serve String.eqb empty_server (Signup 0 "secret" "Ada" "secret"))
  /\ session_ok [mkUser "Ada" "secret"] (mkSession 1 "Ada").
Proof.
  assert (served String.eqb
            (serve String.eqb empty_server (Signup 0 "secret" "Ada" "secret")))
    as Hs by (apply served_step, served_empty).
  split; [exact Hs|].
  exact (proj1 (served_references_users String.eqb _ Hs) 0%nat
           (mkSession 1 "Ada") eq_refl).
Defined.

Lemma serve_all_users compareSync rqs sv :
  exists more, sv_users (serve_all compareSync rqs sv) = sv_users sv ++ more.
Proof.
  revert sv. induction rqs as [|rq rqs IH]; intros sv.
  - exists []. cbn. by rewrite app_nil_r.
  - cbn [serve_all fold_left].
    destruct (IH (serve compareSync sv rq)) as [more2 H2].
    destruct (serve_users compareSync sv rq) as [[more1 H1] _].
    exists (more1 ++ more2). unfold serve_all in H2.
    by rewrite H2, H1, <- app_assoc.
Qed.

(** X20.  Signup and login round trip: once a signup has succeeded with a
    hash that [compareSync] accepts for the password, then after any further
    requests of any clients, a login with that password and the username in
    any ASCII letter case succeeds, as the user created by the signup and
    under the username as it was registered. *)
Theorem signup_then_login compareSync sv c hash name pw rqs c' name2 :
  (exists s us',
     api_signup hash (JStr name) (JStr pw) (sv_sessions sv !! c) (sv_users sv)
     = Some (AuthOk name, s, us')) ->
  compareSync pw hash = true ->
  nocase name2 = nocase name ->
  api_login compareSync (JStr name2) (JStr pw)
    (sv_sessions
       (serve_all compareSync rqs (serve compareSync sv (Signup c hash name pw)))
     !! c')
    (sv_users
       (serve_all compareSync rqs (serve compareSync sv (Signup c hash name pw))))
  = Some (AuthOk name,
          Some (mkSession (Z.of_nat (S (length (sv_users sv)))) name)).
Proof.
  intros (s & us' & E) Hc Hnc.
  destruct (serve_all_users compareSync rqs
              (serve compareSync sv (Signup c hash name pw))) as [more ->].
  cbn [serve]. rewrite E. cbn [sv_users].
  destruct (api_signup_cases hash name pw (sv_sessions sv !! c) (sv_users sv))
    as (r & s1 & us1 & E1 & [(_ & _ & Hno)|(Hf & Hn & Hp & _ & Hus & _)]);
    rewrite E in E1; injection E1 as <- <- <-; [by destruct (Hno name)|].
  subst us'. unfold api_login.
  assert (truthy (JStr name2) = true) as ->.
  { apply truthy_JStr. intros ->. symmetry in Hnc.
    apply (proj1 (nocase_empty name)) in Hnc. congruence. }
  assert (truthy (JStr pw) = true) as ->.
  { apply truthy_JStr. intros ->. cbn in Hp. lia. }
  cbn [negb orb]. unfold findUser in *.
  rewrite <- app_assoc, find_from_app.
  assert (find_from 1 name2 (sv_users sv) = None) as ->.
  { apply find_from_None. apply find_from_None in Hf. by rewrite Hnc. }
  cbn [app find_from u_username].
  assert (nocase_eqb name name2 = true) as -> by (by apply nocase_eqb_eq).
  cbn [u_password u_username]. rewrite Hc. cbn [negb].
  replace (1 + Z.of_nat (length (sv_users sv)))
    with (Z.of_nat (S (length (sv_users sv)))) by lia.
  reflexivity.
Qed.

Lemma signup_then_login_witness :
  api_login String.eqb (JStr "ADA") (JStr "secret")
    (sv_sessions
       (serve_all String.eqb [Logout 0]
          (serve String.eqb empty_server (Signup 0 "secret" "Ada" "secret")))
     !! 5%nat)
    (sv_users
       (serve_all String.eqb [Logout 0]
          (serve String.eqb empty_server (Signup 0 "secret" "Ada" "secret"))))
  = Some (AuthOk "Ada", Some (mkSession 1 "Ada")).
Proof.
  apply (signup_then_login String.eqb empty_server 0 "secret" "Ada" "secret"
           [Logout 0] 5 "ADA").
  - eexists _, _. reflexivity.
  - reflexivity.
  - reflexivity.
Defined.

(** * The leaderboard *)

Lemma insert_desc_perm x l : insert_desc x l ≡ₚ x :: l.
Proof.
  induction l as [|y l IH]; cbn [insert_desc]; [done|].
  destruct (Qle_bool (l_total_energy y) (l_total_energy x)); [done|].
  rewrite IH. apply Permutation_swap.
Qed.

Lemma sort_desc_perm l : sort_desc l ≡ₚ l.
Proof.
  induction l as [|x l IH]; [done|].
  cbn [sort_desc foldr]. fold (sort_desc l).
  by rewrite insert_desc_perm, IH.
Qed.

Lemma insert_desc_sorted x l :
  StronglySorted (fun a b => (l_total_energy b <= l_total_energy a)%Q) l ->
  StronglySorted (fun a b => (l_total_energy b <= l_total_energy a)%Q)
                 (insert_desc x l).
Proof.
  induction 1 as [|y l Hs IH Hy]; cbn [insert_desc].
  - repeat constructor.
  - destruct (Qle_bool (l_total_energy y) (l_total_energy x)) eqn:E.
    + apply Qle_bool_iff in E. constructor; [by constructor|].
      constructor; [done|].
      eapply Forall_impl; [exact Hy|]. intros z Hz. cbn in Hz |- *.
      by eapply Qle_trans.
    + assert (l_total_energy x <= l_total_energy y)%Q as Hxy.
      { apply Qlt_le_weak, Qnot_le_lt. intros Hle.
        apply Qle_bool_iff in Hle. congruence. }
      constructor; [done|]. rewrite insert_desc_perm. by constructor.
Qed.

Lemma sort_desc_sorted l :
  StronglySorted (fun a b => (l_total_energy b <= l_total_energy a)%Q)
                 (sort_desc l).
Proof.
  induction l as [|x l IH]; [constructor|].
  cbn [sort_desc foldr]. by apply insert_desc_sorted.
Qed.

(** Rows of equal total keep their order. *)
Example sort_desc_ties :
  map l_id (sort_desc [mkLeader 1 "a" 5 0 0; mkLeader 2 "b" 9 0 0;
                       mkLeader 3 "c" 5 0 0; mkLeader 4 "d" 9 0 0])
  = [2; 4; 1; 3].
Proof. reflexivity. Qed.

Lemma users_from_lookup n us i row :
  (i, row) ∈ users_from n us <->
  n <= i /\ us !! Z.to_nat (i - n) = Some row.
Proof.
  revert n. induction us as [|x us IH]; intros n; cbn [users_from].
  - split; [intros H; by apply elem_of_nil in H|by intros [_ ?]].
  - rewrite elem_of_cons, IH. split.
    + intros [[= -> ->]|[Hle Hl]].
      * split; [lia|]. by rewrite Z.sub_diag.
      * split; [lia|].
        replace (Z.to_nat (i - n)) with (S (Z.to_nat (i - (n + 1)))) by lia.
        done.
    + intros [Hle Hl]. destruct (decide (i = n)) as [->|Hne].
      * left. rewrite Z.sub_diag in Hl.
        assert (Some x = Some row) as [= ->] by exact Hl. done.
      * right. split; [lia|].
        replace (Z.to_nat (i - n)) with (S (Z.to_nat (i - (n + 1)))) in Hl by lia.
        done.
Qed.

Lemma users_from_length n us : length (users_from n us) = length us.
Proof.
  revert n. induction us as [|x us IH]; intros n; cbn; [done|]. by rewrite IH.
Qed.

Lemma leader_line_Some today db ir line :
  leader_line today db ir = Some line <->
  sum_overflows (user_points ir.1 (activity_log db)) = false
  /\ line = line_ok today db ir.
Proof.
  unfold leader_line, sql_sum, line_ok, battery_balance.
  destruct (sum_overflows (user_points ir.1 (activity_log db))).
  - split; [done|]. by intros [? _].
  - split; [by intros [= <-]|]. by intros [_ ->].
Qed.

Lemma leader_line_None today db ir :
  leader_line today db ir = None <->
  sum_overflows (user_points ir.1 (activity_log db)) = true.
Proof.
  unfold leader_line, sql_sum.
  by destruct (sum_overflows (user_points ir.1 (activity_log db))).
Qed.

Lemma mapM_leader_line today db l k :
  mapM (leader_line today db) l = Some k <->
  Forall (fun ir : Z * user_row =>
            sum_overflows (user_points ir.1 (activity_log db)) = false) l
  /\ k = map (line_ok today db) l.
Proof.
  rewrite mapM_Some. split.
  - induction 1 as [|ir line l k Hl _ [IH1 IH2]]; [by split|].
    apply leader_line_Some in Hl as [Ho ->]. split; [by constructor|].
    cbn [map]. by rewrite IH2.
  - intros [HF ->]. induction HF as [|ir l Ho _ IH]; constructor; [|done].
    by apply leader_line_Some.
Qed.

(** X21.  [GET /api/leaderboard] fails (and the route answers 500) exactly
    when [SUM(points)] of some registered user overflows.  Otherwise it has
    exactly one line per registered user, in order of non-increasing lifetime
    total, and the line of a user shows the sum of all points logged for them
    (not clamped), the energy of their record for the given date, or 0 when
    they have none, and their battery balance. *)
Theorem leaderboard_lists_users today us db :
  (leaderboard today us db = None <->
     exists id row,
       1 <= id /\ us !! Z.to_nat (id - 1) = Some row
       /\ sum_overflows (user_points id (activity_log db)) = true)
  /\ (forall lines,
        leaderboard today us db = Some lines ->
        length lines = length us
        /\ StronglySorted (fun a b => (l_total_energy b <= l_total_energy a)%Q)
                          lines
        /\ (forall line,
              line ∈ lines <->
              exists row,
                1 <= l_id line
                /\ us !! Z.to_nat (l_id line - 1) = Some row
                /\ line
                   = mkLeader (l_id line) (u_username row)
                       (Qsum (user_points (l_id line) (activity_log db)))
                       (match daily_stats db !! (l_id line, today) with
                        | Some r => energy r
                        | None => 0%Q
                        end)
                       (battery_balance (l_id line) db))).
Proof.
  unfold leaderboard. split.
  - destruct (mapM (leader_line today db) (users_from 1 us)) as [k|] eqn:Hm.
    + split; [done|]. intros (id & row & Hle & Hl & Ho). exfalso.
      apply mapM_leader_line in Hm as [HF _]. rewrite Forall_forall in HF.
      assert ((id, row) ∈ users_from 1 us) as Hin by (by apply users_from_lookup).
      specialize (HF _ Hin). cbn [fst] in HF. congruence.
    + split; [|done]. intros _. apply mapM_None, Exists_exists in Hm
        as ([id row] & Hin & Hn).
      apply leader_line_None in Hn. apply users_from_lookup in Hin as [Hle Hl].
      by exists id, row.
  - intros lines.
    destruct (mapM (leader_line today db) (users_from 1 us)) as [k|] eqn:Hm;
      [|done].
    intros [= <-]. apply mapM_leader_line in Hm as [HF ->].
    split; [by rewrite sort_desc_perm, length_map, users_from_length|].
    split; [apply sort_desc_sorted|].
    intros line. rewrite sort_desc_perm. split.
    + intros H. apply list_elem_of_In, in_map_iff in H as ([i row] & <- & Hin).
      apply list_elem_of_In, users_from_lookup in Hin as [Hle Hl].
      exists row. cbn [l_id line_ok fst snd]. done.
    + intros (row & Hle & Hl & ->). cbn [l_id].
      apply list_elem_of_In, in_map_iff. exists (l_id line, row). split; [done|].
      apply list_elem_of_In, users_from_lookup. done.
Qed.

Lemma leaderboard_lists_users_witness :
  exists lines,
    leaderboard "2024-05-02" [mkUser "Ada" "h1"; mkUser "Bob" "h2"] db_A
    = Some lines
    /\ length lines = 2%nat.
Proof.
  assert (exists lines,
            leaderboard "2024-05-02" [mkUser "Ada" "h1"; mkUser "Bob" "h2"] db_A
            = Some lines) as [lines E] by (eexists; vm_compute; reflexivity).
  exists lines. split; [exact E|].
  exact (proj1 (proj2 (leaderboard_lists_users "2024-05-02"
                         [mkUser "Ada" "h1"; mkUser "Bob" "h2"] db_A) lines E)).
Defined.

(** X22.  The leaderboard and [GET /api/me] agree: when the leaderboard is
    answered, for a registered user who has a record for today, its line
    shows the lifetime total, today's energy and the battery balance that
    [GET /api/me] answers, with 200, on that day. *)
Theorem leaderboard_agrees_with_me today us db id urow row lines :
  1 <= id ->
  us !! Z.to_nat (id - 1) = Some urow ->
  daily_stats db !! (id, today) = Some row ->
  leaderboard today us db = Some lines ->
  exists line,
    line ∈ lines
    /\ l_id line = id
    /\ l_username line = u_username urow
    /\ forall h y,
         api_me (mkClock h today y) id db
         = (Status200
              (mkMe (l_total_energy line) (l_today_energy line)
                    (l_batteries line)
                    (truthyZ (battery_earned row)) (truthyZ (bonus_applied row))),
            db).
Proof.
  intros Hle Hl Hk. unfold leaderboard.
  destruct (mapM (leader_line today db) (users_from 1 us)) as [k|] eqn:Hm;
    [|done].
  intros [= <-]. apply mapM_leader_line in Hm as [HF ->].
  assert ((id, urow) ∈ users_from 1 us) as Hin by (by apply users_from_lookup).
  rewrite Forall_forall in HF. pose proof (HF _ Hin) as Ho. cbn [fst] in Ho.
  exists (line_ok today db (id, urow)). split.
  { rewrite sort_desc_perm.
    apply list_elem_of_In, in_map, list_elem_of_In. done. }
  split; [done|]. split; [done|]. intros h y.
  assert (ensured (mkClock h today y) id db = db) as Hid
    by (by apply (ensured_existing _ _ _ row)).
  rewrite (api_me_reply _ id db row); rewrite Hid; [|done].
  rewrite Ho. unfold line_ok.
  cbn [fst snd l_total_energy l_today_energy l_batteries].
  by rewrite Hk.
Qed.

Lemma leaderboard_agrees_with_me_witness :
  exists lines line,
    leaderboard "2024-05-02" [mkUser "a" "h1"; mkUser "b" "h2";
                               mkUser "c" "h3"; mkUser "d" "h4";
                               mkUser "e" "h5"; mkUser "f" "h6";
                               mkUser "Ada" "secret"] db_A = Some lines
    /\ line ∈ lines
    /\ l_id line = 7
    /\ l_username line = "Ada"%string
    /\ l_total_energy line = 70%Q.
Proof.
  assert (exists lines,
            leaderboard "2024-05-02"
              [mkUser "a" "h1"; mkUser "b" "h2"; mkUser "c" "h3";
               mkUser "d" "h4"; mkUser "e" "h5"; mkUser "f" "h6";
               mkUser "Ada" "secret"] db_A = Some lines) as [lines E]
    by (eexists; vm_compute; reflexivity).
  destruct (leaderboard_agrees_with_me "2024-05-02"
              [mkUser "a" "h1"; mkUser "b" "h2"; mkUser "c" "h3";
               mkUser "d" "h4"; mkUser "e" "h5"; mkUser "f" "h6";
               mkUser "Ada" "secret"] db_A 7 (mkUser "Ada" "secret")
              (mkDaily 70 1 0) lines) as (line & Hin & Hid & Hn & Hme).
  - lia.
  - reflexivity.
  - reflexivity.
  - exact E.
  - exists lines, line. split; [exact E|]. split; [exact Hin|].
    split; [exact Hid|]. split; [exact Hn|].
    specialize (Hme "2024-05-02"%string "2024-05-01"%string).
    vm_compute in Hme. injection Hme as Ht _ _. symmetry. exact Ht.
Defined.

(** X23.  On every server reached from the empty one, a client with a session
    is never refused by [requireAuth], and the request goes on under the id of
    a registered user; a client without a session is refused, and its
    [GET /api/me] and [POST /api/log] leave the server as it is. *)
Theorem served_requireAuth compareSync sv c :
  served compareSync sv ->
  match sv_sessions sv !! c with
  | Some s =>
      requireAuth (sv_sessions sv !! c) = Some (s_userId s)
      /\ registered (sv_users sv) (s_userId s)
  | None =>
      requireAuth (sv_sessions sv !! c) = None
      /\ (forall clk, serve compareSync sv (Me c clk) = sv)
      /\ (forall clk ty p, serve compareSync sv (Log c clk ty p) = sv)
  end.
Proof.
  intros Hs. destruct (sv_sessions sv !! c) as [s|] eqn:Hc.
  - destruct (served_references_users_aux compareSync sv Hs) as [Hok _].
    destruct (Hok c s Hc) as [Hr _]. split; [|done].
    unfold requireAuth, truthyZ. unfold registered in Hr.
    destruct (s_userId s =? 0) eqn:E; [apply Z.eqb_eq in E; lia|done].
  - split; [done|]. split; intros; cbn [serve]; by rewrite Hc.
Qed.

Lemma served_requireAuth_witness :
  served String.eqb
    (serve String.eqb empty_server (Signup 0 "secret" "Ada" "secret"))
  /\ requireAuth (Some (mkSession 1 "Ada")) = Some 1.
Proof.
  assert (served String.eqb
            (serve String.eqb empty_server (Signup 0 "secret" "Ada" "secret")))
    as Hs by (apply served_step, served_empty).
  split; [exact Hs|].
  exact (proj1 (served_requireAuth String.eqb _ 0%nat Hs)).
Defined.
